(** * Timestamped archive-then-write: a shallow embedding of the
      demonstration pipeline (synth_data.py, plot_data.py, pipeline.py)

    The three Python modules share one mechanism: before a fresh artifact
    is written to its current location, the previous one is moved into a
    sibling archive directory under a name that carries a timestamp.

    The embedding is a state-and-exception monad over a [world] made of the
    regular files, the directories, the log of observable effects (console
    lines, sleeps, moves, writes) and the number of clock readings taken so
    far.  Everything the program delegates to a collaborator (the wall
    clock, the operating system's verdict on a move or a write, the random
    sampling, the chart renderer, the inference library) is a field of an
    environment record [env]; the theorems quantify over it.

    Failure modes: a missing input file, a table that pandas cannot parse
    or whose Time column it cannot convert, a chart that cannot be drawn, a
    failing move or write, a failing import or inference call.  Directory
    creation with exist_ok=True is taken to succeed, and a write that fails
    fails before it changes the file.

    A [while True] loop that only Ctrl+C ends takes the number of
    iterations that start before the KeyboardInterrupt arrives; what the
    user types at a prompt of [main] is an argument.  The status list of
    the front end (streamlit_app.py, [add_status_message]) is a pure
    function on the list. *)

From Stdlib Require Import ZArith Lia Ascii String.
From stdpp Require Import base strings gmap list fin_maps.

Local Open Scope string_scope.

(** ** Python string helpers *)

Module PyStr.

(** [s * n] *)
Fixpoint str_mul (s : string) (n : nat) : string :=
  match n with
  | O => EmptyString
  | S k => s ++ str_mul s k
  end.

Definition digit_char (k : nat) : ascii :=
  match k with
  | 0 => "0" | 1 => "1" | 2 => "2" | 3 => "3" | 4 => "4"
  | 5 => "5" | 6 => "6" | 7 => "7" | 8 => "8" | _ => "9"
  end%char%nat.

(** The decimal digits of [n] in front of [acc]; [fuel] bounds their
    number. *)
Fixpoint decimal_digits (fuel n : nat) (acc : string) : string :=
  match fuel with
  | O => acc
  | S fuel' =>
      let acc' := String (digit_char (n mod 10)) acc in
      if (n <? 10)%nat then acc' else decimal_digits fuel' (n / 10) acc'
  end.

(** [str(n)] for a non-negative integer *)
Definition str_of_nat (n : nat) : string :=
  decimal_digits (S n) n EmptyString.

(** A decimal field zero-padded to width [w], as the strftime directives
    %Y (w = 4) and %m %d %H %M %S (w = 2) print it. *)
Definition zero_pad (w n : nat) : string :=
  let s := str_of_nat n in
  str_mul "0" (w - String.length s) ++ s.

Definition is_digit (c : ascii) : bool :=
  let k := nat_of_ascii c in (48 <=? k)%nat && (k <=? 57)%nat.

Fixpoint all_digits (s : string) : bool :=
  match s with
  | EmptyString => true
  | String c r => is_digit c && all_digits r
  end.

(** [p.rfind(c)]: index of the last occurrence, -1 when there is none. *)
Fixpoint rfind_from (c : ascii) (p : string) (i : Z) (last : Z) : Z :=
  match p with
  | EmptyString => last
  | String a r => rfind_from c r (i + 1) (if Ascii.eqb a c then i else last)
  end.

Definition rfind (p : string) (c : ascii) : Z := rfind_from c p 0 (-1).

(** [p[i:]] and [p[:i]] for a non-negative index *)
Fixpoint drop_str (i : nat) (p : string) : string :=
  match i, p with
  | O, _ => p
  | S k, EmptyString => EmptyString
  | S k, String _ r => drop_str k r
  end.

Fixpoint take_str (i : nat) (p : string) : string :=
  match i, p with
  | O, _ => EmptyString
  | S k, EmptyString => EmptyString
  | S k, String a r => String a (take_str k r)
  end.

(** The loop of genericpath._splitext that skips leading dots: starting at
    [filenameIndex], look for a character that is not a dot strictly before
    [dotIndex]; [n] bounds the number of iterations. *)
Fixpoint has_non_dot (p : string) (filenameIndex : nat) (n : nat) : bool :=
  match n with
  | O => false
  | S k =>
      match String.get filenameIndex p with
      | Some a => if Ascii.eqb a "." then has_non_dot p (S filenameIndex) k
                  else true
      | None => true
      end
  end.

(** [os.path.splitext(p)] (posixpath: sep is "/", no altsep, extsep is ".") *)
Definition splitext (p : string) : string * string :=
  let sepIndex := rfind p "/" in
  let dotIndex := rfind p "." in
  if (dotIndex >? sepIndex)%Z then
    let filenameIndex := Z.to_nat (sepIndex + 1) in
    if has_non_dot p filenameIndex (Z.to_nat dotIndex - filenameIndex)
    then (take_str (Z.to_nat dotIndex) p, drop_str (Z.to_nat dotIndex) p)
    else (p, EmptyString)
  else (p, EmptyString).

Definition starts_with_slash (p : string) : bool :=
  match p with
  | String a _ => Ascii.eqb a "/"
  | EmptyString => false
  end.

Fixpoint ends_with_slash (p : string) : bool :=
  match p with
  | EmptyString => false
  | String a EmptyString => Ascii.eqb a "/"
  | String _ r => ends_with_slash r
  end.

(** [os.path.join(a, b)] (posixpath, two components) *)
Definition path_join (a b : string) : string :=
  if starts_with_slash b then b
  else if (String.length a =? 0)%nat || ends_with_slash a then a ++ b
  else a ++ "/" ++ b.

(** [s.startswith(pre)] *)
Fixpoint startswith (pre s : string) : bool :=
  match pre, s with
  | EmptyString, _ => true
  | String a p, String b r => Ascii.eqb a b && startswith p r
  | String _ _, EmptyString => false
  end.

(** Python's whitespace characters of the ASCII range: space, tab, line
    feed, vertical tab, form feed, carriage return and the four
    separators 28 to 31 *)
Definition is_space (c : ascii) : bool :=
  let k := nat_of_ascii c in
  (k =? 32)%nat || ((9 <=? k)%nat && (k <=? 13)%nat)
  || ((28 <=? k)%nat && (k <=? 31)%nat).

Fixpoint lstrip (s : string) : string :=
  match s with
  | String c r => if is_space c then lstrip r else s
  | EmptyString => EmptyString
  end.

(** Drops the whitespace at the end: the result is empty when nothing but
    whitespace is left. *)
Fixpoint rstrip (s : string) : string :=
  match s with
  | EmptyString => EmptyString
  | String c r =>
      match rstrip r with
      | EmptyString => if is_space c then EmptyString else String c EmptyString
      | r' => String c r'
      end
  end.

(** [s.strip()] *)
Definition strip (s : string) : string := rstrip (lstrip s).

End PyStr.

(** ** datetime *)

Module Datetime.

Record datetime := mkDatetime {
  year : nat; month : nat; day : nat;
  hour : nat; minute : nat; second : nat;
  microsecond : nat
}.

(** The value ranges of a Python datetime (day-of-month refinements are not
    needed here). *)
Definition valid (d : datetime) : Prop :=
  (1 <= year d /\ year d < 100 * 100 /\ 1 <= month d <= 12 /\ 1 <= day d <= 31 /\
   hour d < 24 /\ minute d < 60 /\ second d < 60)%nat.

Definition directive (c : ascii) (d : datetime) : string :=
  if Ascii.eqb c "Y" then PyStr.zero_pad 4 (year d)
  else if Ascii.eqb c "m" then PyStr.zero_pad 2 (month d)
  else if Ascii.eqb c "d" then PyStr.zero_pad 2 (day d)
  else if Ascii.eqb c "H" then PyStr.zero_pad 2 (hour d)
  else if Ascii.eqb c "M" then PyStr.zero_pad 2 (minute d)
  else if Ascii.eqb c "S" then PyStr.zero_pad 2 (second d)
  else String "%" (String c EmptyString).

(** [d.strftime(fmt)] for the directives the program uses *)
Fixpoint strftime (fmt : string) (d : datetime) : string :=
  match fmt with
  | EmptyString => EmptyString
  | String a r =>
      if Ascii.eqb a "%" then
        match r with
        | String c r' => directive c d ++ strftime r' d
        | EmptyString => String a EmptyString
        end
      else String a (strftime r d)
  end.

(** Two readings fall in the same wall-clock second. *)
Definition same_second (d1 d2 : datetime) : Prop :=
  year d1 = year d2 /\ month d1 = month d2 /\ day d1 = day d2 /\
  hour d1 = hour d2 /\ minute d1 = minute d2 /\ second d1 = second d2.

End Datetime.

(** ** The Python runtime: world, exceptions, effects *)

Module Py.

Import Datetime.

(** The exception classes the program distinguishes.  Every class but
    [KeyboardInterrupt] derives from Exception. *)
Inductive exn :=
| OSError (msg : string)
| FileNotFoundError (msg : string)
| ImportError (msg : string)
| ValueError (msg : string)
| KeyError (msg : string)
| RuntimeError (msg : string)
| KeyboardInterrupt.

Definition is_Exception (e : exn) : bool :=
  match e with KeyboardInterrupt => false | _ => true end.

Definition is_ImportError (e : exn) : bool :=
  match e with ImportError _ => true | _ => false end.

Definition is_FileNotFoundError (e : exn) : bool :=
  match e with FileNotFoundError _ => true | _ => false end.



(** [str(e)] *)
Definition exn_str (e : exn) : string :=
  match e with
  | OSError m | FileNotFoundError m | ImportError m
  | ValueError m | KeyError m | RuntimeError m => m
  | KeyboardInterrupt => EmptyString
  end.

(** Observable effects, in the order they happen. *)
Inductive event :=
| Printed (line : string)
| Slept (secs : nat)
| Moved (src dst : string)
| Wrote (path : string).

Record world := mkWorld {
  files : gmap string string;   (* regular files: path to content *)
  dirs : gset string;           (* directories *)
  log : list event;             (* effects so far, oldest first *)
  reads : nat                   (* clock readings taken so far *)
}.

Definition set_files (f : gmap string string) (w : world) : world :=
  mkWorld f (dirs w) (log w) (reads w).

Definition add_dirs (d : gset string) (w : world) : world :=
  mkWorld (files w) (d ∪ dirs w) (log w) (reads w).

Definition emit (e : event) (w : world) : world :=
  mkWorld (files w) (dirs w) (log w ++ [e]) (reads w).

Definition tick (w : world) : world :=
  mkWorld (files w) (dirs w) (log w) (S (reads w)).

Inductive result (A : Type) :=
| Ok (a : A)
| Raise (e : exn).
Arguments Ok {A} a.
Arguments Raise {A} e.

(** A computation: runs in a world, returns or raises, leaves a world. *)
Definition M (A : Type) : Type := world -> result A * world.

Definition ret {A} (a : A) : M A := fun w => (Ok a, w).

Definition raise {A} (e : exn) : M A := fun w => (Raise e, w).

Definition bind {A B} (m : M A) (k : A -> M B) : M B :=
  fun w =>
    match m w with
    | (Ok a, w1) => k a w1
    | (Raise e, w1) => (Raise e, w1)
    end.

(** [try: body  except <classes selected by catches> as e: handler e] *)
Definition try_except {A} (body : M A) (catches : exn -> bool)
    (handler : exn -> M A) : M A :=
  fun w =>
    match body w with
    | (Ok a, w1) => (Ok a, w1)
    | (Raise e, w1) => if catches e then handler e w1 else (Raise e, w1)
    end.

Notation "'let!' x := m 'in' k" := (bind m (fun x => k))
  (at level 10, x pattern, m at level 100, k at level 200, only parsing).
Notation "m >> k" := (bind m (fun _ => k))
  (at level 90, right associativity, only parsing).

(** [for x in xs: body x] *)
Fixpoint for_each {A} (xs : list A) (body : A -> M unit) : M unit :=
  match xs with
  | [] => ret tt
  | x :: rest => body x >> for_each rest body
  end.

(** What the vision-language library does when it is asked for an
    analysis: it fails at some stage with an exception derived from
    Exception (an ImportError or another class), or it returns a result. *)
Inductive vlm_stage := AtImport | AtLoad | AtTemplate | AtGenerate.

(** The value [generate] returns: older releases of the library return a
    plain str, newer ones an object with a [text] attribute. *)
Inductive analysis_result :=
| GenerationResult (text : string)
| PlainStr (s : string).

Inductive vlm_outcome :=
| VlmRaises (stage : vlm_stage) (import_error : bool) (msg : string)
| VlmReturns (output : analysis_result).

(** What pandas or matplotlib raise on a table they cannot work with: a
    KeyError for a column that is not there, a ValueError (pandas'
    EmptyDataError and ParserError derive from it) for content they cannot
    read. *)
Inductive frame_error :=
| MissingColumn (msg : string)
| BadContent (msg : string).

Definition frame_exn (e : frame_error) : exn :=
  match e with
  | MissingColumn msg => KeyError msg
  | BadContent msg => ValueError msg
  end.

(** The collaborators: everything the program does not decide itself. *)
Record env := mkEnv {
  (* the n-th reading of datetime.now() *)
  clock : nat -> datetime;
  (* the operating system's verdict on moving src to dst: an error message,
     or None when the move goes through *)
  move_error : world -> string -> string -> option string;
  (* its verdict on opening a path for writing *)
  write_error : world -> string -> option string;
  (* the CSV text of the freshly sampled events and sensors tables *)
  sample : world -> string * string;
  (* number of data rows pandas finds in a CSV text *)
  table_len : string -> nat;
  (* pandas' verdict on parsing a CSV text that is not empty: the message
     of its ParserError, or None when the text parses *)
  parse_error : string -> option string;
  (* its verdict on converting the Time column of a table to datetimes *)
  time_error : string -> option frame_error;
  (* the PNG bytes the charting library renders from the two tables *)
  render : string -> string -> string;
  (* what goes wrong when the six plots are drawn from the two tables
     (a sensor column that is not there, say), or None *)
  render_error : string -> string -> option frame_error;
  (* the inference library *)
  vlm : world -> vlm_outcome
}.

(** *** Primitives *)

Section Primitives.

Variable E : env.

(** [print(line)] *)
Definition print (line : string) : M unit :=
  fun w => (Ok tt, emit (Printed line) w).

(** [time.sleep(secs)] *)
Definition sleep (secs : nat) : M unit :=
  fun w => (Ok tt, emit (Slept secs) w).

(** [datetime.now()] *)
Definition now : M datetime :=
  fun w => (Ok (clock E (reads w)), tick w).

(** The directory [p] and its ancestors, as os.makedirs creates them. *)
Fixpoint dir_chain (acc p : string) : list string :=
  match p with
  | EmptyString => [acc]
  | String a r =>
      if Ascii.eqb a "/" then acc :: dir_chain (acc ++ "/") r
      else dir_chain (acc ++ String a EmptyString) r
  end.

(** [os.makedirs(p, exist_ok=True)] *)
Definition makedirs (p : string) : M unit :=
  fun w => (Ok tt, add_dirs (list_to_set (dir_chain EmptyString p)) w).

(** [os.path.exists(p)] for the path of an artifact, a regular file *)
Definition path_exists (p : string) : M bool :=
  fun w => (Ok (bool_decide (is_Some (files w !! p))), w).

(** [shutil.move(src, dst)] for a regular file: a rename, which replaces
    whatever file [dst] names; on failure nothing has changed. *)
Definition shutil_move (src dst : string) : M unit :=
  fun w =>
    match files w !! src with
    | None => (Raise (FileNotFoundError src), w)
    | Some c =>
        match move_error E w src dst with
        | Some msg => (Raise (OSError msg), w)
        | None =>
            (Ok tt, emit (Moved src dst)
                      (set_files (<[dst := c]> (delete src (files w))) w))
        end
    end.

(** [with open(path, "w") as f: f.write(...)], also the shape of
    DataFrame.to_csv(path) and Figure.savefig(path): the open may fail;
    otherwise [body] computes the text and the file holds it afterwards. *)
Definition write_file (path : string) (body : M string) : M unit :=
  fun w =>
    match write_error E w path with
    | Some msg => (Raise (OSError msg), w)
    | None =>
        match body w with
        | (Ok text, w1) =>
            (Ok tt, emit (Wrote path) (set_files (<[path := text]> (files w1)) w1))
        | (Raise e, w1) => (Raise e, w1)
        end
    end.

(** [pd.read_csv(path)]: the table is kept as its CSV text.  A missing
    file is a FileNotFoundError, an empty file pandas' EmptyDataError, a
    text it cannot parse its ParserError. *)
Definition read_csv (path : string) : M string :=
  fun w =>
    match files w !! path with
    | Some text =>
        if (String.length text =? 0)%nat
        then (Raise (ValueError "No columns to parse from file"), w)
        else match parse_error E text with
             | Some msg => (Raise (ValueError msg), w)
             | None => (Ok text, w)
             end
    | None =>
        (Raise (FileNotFoundError
                  ("[Errno 2] No such file or directory: '" ++ path ++ "'")), w)
    end.

(** [df['Time'] = pd.to_datetime(df['Time'])] *)
Definition to_datetime (df : string) : M string :=
  fun w =>
    match time_error E df with
    | Some e => (Raise (frame_exn e), w)
    | None => (Ok df, w)
    end.

(** [create_culprit_signals_plot(events_df, sensors_df)]: the figure, kept
    as the PNG bytes that savefig will write. *)
Definition draw_figure (events_df sensors_df : string) : M string :=
  fun w =>
    match render_error E events_df sensors_df with
    | Some e => (Raise (frame_exn e), w)
    | None => (Ok (render E events_df sensors_df), w)
    end.

(** The random sampling of [generate_and_save_data], serialised as CSV *)
Definition sample_tables : M (string * string) :=
  fun w => (Ok (sample E w), w).

(** What the inference library will do when it is called from the current
    world *)
Definition consult_vlm : M vlm_outcome :=
  fun w => (Ok (vlm E w), w).

End Primitives.

(** *** The block the three rotation routines repeat *)

Section Rotation.

Variable E : env.

(** [name, ext = os.path.splitext(filename)] and then
    the f-string [{name}_{timestamp}{ext}] *)
Definition archived_name (filename timestamp : string) : string :=
  let '(name, ext) := PyStr.splitext filename in
  name ++ "_" ++ timestamp ++ ext.

(** [filepath = os.path.join(dir, filename)]; if it exists, move it to
    [archive_dir] under its archived name and say so. *)
Definition archive_if_exists (dir archive_dir timestamp filename : string)
  : M unit :=
  let filepath := PyStr.path_join dir filename in
  let! found := path_exists filepath in
  if (found : bool) then
    let archived_filename := archived_name filename timestamp in
    let archived_filepath := PyStr.path_join archive_dir archived_filename in
    shutil_move E filepath archived_filepath >>
    print ("Archived " ++ filename ++ " to " ++ archived_filename)
  else ret tt.

End Rotation.

End Py.

(** ** synth_data.py *)

Module SynthData.

Import Datetime Py.

Section Program.

Variable E : env.

Definition archive_existing_files : M unit :=
  let data_dir := "data" in
  let archive_dir := "data/archive" in
  makedirs archive_dir >>
  let! d := now E in
  let timestamp := strftime "%Y%m%d_%H%M%S" d in
  for_each ["events.csv"; "sensors.csv"]
    (fun filename => archive_if_exists E data_dir archive_dir timestamp filename).

(** The sampling of the two tables is the collaborator [sample]. *)
Definition generate_and_save_data : M unit :=
  archive_existing_files >>
  let! tables := sample_tables E in
  let '(events_df, sensors_df) := (tables : string * string) in
  write_file E "data/events.csv" (ret events_df) >>
  write_file E "data/sensors.csv" (ret sensors_df) >>
  let! d := now E in
  print ("Generated new events.csv and sensors.csv at "
         ++ strftime "%Y-%m-%d %H:%M:%S" d).

(** The [while True] loop of [run_continuous_generation]; [cycles] is the
    number of iterations that start before the KeyboardInterrupt arrives,
    whose handler is the base case.  No other exception is caught. *)
Fixpoint generation_loop (cycles : nat) : M unit :=
  match cycles with
  | O => print (String (ascii_of_nat 10) "Stopping data generation...")
  | S remaining =>
      (* Update start_time to current time for realistic timestamps *)
      let! start_time := now E in
      generate_and_save_data >>
      (* Wait 30 seconds *)
      sleep 30 >>
      generation_loop remaining
  end.


End Program.

End SynthData.

(** ** plot_data.py *)

Module PlotData.

Import Datetime Py.

Section Program.

Variable E : env.

Definition load_data : M (option string * option string) :=
  try_except
    (let! events_df := read_csv E "data/events.csv" in
     let! sensors_df := read_csv E "data/sensors.csv" in
     (* Convert time columns to datetime *)
     let! events_df := to_datetime E events_df in
     let! sensors_df := to_datetime E sensors_df in
     ret (Some events_df, Some sensors_df))
    is_FileNotFoundError
    (fun e =>
       print ("Error loading data: " ++ exn_str e) >>
       ret (None, None)).

Definition archive_existing_plot : M unit :=
  let images_dir := "images" in
  let archive_dir := "images/archive" in
  makedirs archive_dir >>
  let! d := now E in
  let timestamp := strftime "%Y%m%d_%H%M%S" d in
  let filename := "culprit_signals_analysis.png" in
  archive_if_exists E images_dir archive_dir timestamp filename.

Definition create_dashboard : M unit :=
  let! loaded := load_data in
  match (loaded : option string * option string) with
  | (Some events_df, Some sensors_df) =>
      print ("Loaded " ++ PyStr.str_of_nat (table_len E events_df)
             ++ " events and " ++ PyStr.str_of_nat (table_len E sensors_df)
             ++ " sensor readings") >>
      archive_existing_plot >>
      print "Creating culprit signals plot..." >>
      let! fig_culprit := draw_figure E events_df sensors_df in
      write_file E "images/culprit_signals_analysis.png" (ret fig_culprit) >>
      let! d := now E in
      print ("New plot saved: images/culprit_signals_analysis.png at "
             ++ strftime "%Y-%m-%d %H:%M:%S" d)
  | _ =>
      print "Could not load data files. Make sure events.csv and sensors.csv exist in the data folder."
  end.

End Program.

End PlotData.

(** ** pipeline.py *)

Module Pipeline.

Import Datetime Py.

Definition stage_eqb (a b : vlm_stage) : bool :=
  match a, b with
  | AtImport, AtImport | AtLoad, AtLoad
  | AtTemplate, AtTemplate | AtGenerate, AtGenerate => true
  | _, _ => false
  end.

Definition vlm_exn (import_error : bool) (msg : string) : exn :=
  if import_error then ImportError msg else RuntimeError msg.

(** The library call of stage [s]: raises when the library fails there. *)
Definition vlm_call (o : vlm_outcome) (s : vlm_stage) : M unit :=
  match o with
  | VlmRaises s' import_error msg =>
      if stage_eqb s s' then raise (vlm_exn import_error msg) else ret tt
  | VlmReturns _ => ret tt
  end.

(** Python truthiness of what [run_plot_analysis] returns *)
Definition truthy (r : option analysis_result) : bool :=
  match r with
  | None => false
  | Some (PlainStr s) => negb (String.length s =? 0)%nat
  | Some (GenerationResult _) => true
  end.

(** [r.text if hasattr(r, 'text') else str(r)] *)
Definition text_of (r : option analysis_result) : string :=
  match r with
  | Some (GenerationResult text) => text
  | Some (PlainStr s) => s
  | None => "None"
  end.

Definition rule (n : nat) : string := PyStr.str_mul "=" n.

Definition newline : string := String (ascii_of_nat 10) EmptyString.

(** The text the nine [f.write] calls of [save_analysis_report] produce,
    given the reading of the clock taken for the fourth. *)
Definition report_text (analysis_text : string) (d : datetime) : string :=
  rule 80 ++ newline
  ++ "INDUSTRIAL PROCESS MONITORING - ANOMALY ANALYSIS REPORT" ++ newline
  ++ rule 80 ++ newline
  ++ "Generated at: " ++ strftime "%Y-%m-%d %H:%M:%S" d ++ newline
  ++ "Source plot: images/culprit_signals_analysis.png" ++ newline
  ++ rule 80 ++ newline ++ newline
  ++ analysis_text
  ++ newline ++ newline ++ rule 80 ++ newline
  ++ "End of Report" ++ newline.

Section Program.

Variable E : env.

Definition run_plot_analysis : M (option analysis_result) :=
  let! o := consult_vlm E in
  try_except
    (print "🤖 Running AI analysis of the generated plot..." >>
     vlm_call o AtImport >>
     let model_path := "mlx-community/LFM2-VL-450M-8bit" in
     print ("📥 Loading model: " ++ model_path) >>
     vlm_call o AtLoad >>
     vlm_call o AtTemplate >>
     print "🔍 Analyzing plot for anomalies..." >>
     match o with
     | VlmReturns output => ret (Some output)
     | VlmRaises _ import_error msg => raise (vlm_exn import_error msg)
     end)
    is_Exception
    (fun e =>
       if is_ImportError e then
         print ("❌ Error importing MLX VLM modules: " ++ exn_str e) >>
         print "Make sure mlx-vlm is installed: pip install mlx-vlm" >>
         ret None
       else
         print ("❌ Error during analysis: " ++ exn_str e) >>
         ret None).

Definition archive_existing_analysis : M unit :=
  let analysis_dir := "analysis" in
  let archive_dir := "analysis/archive" in
  makedirs analysis_dir >>
  makedirs archive_dir >>
  let! d := now E in
  let timestamp := strftime "%Y%m%d_%H%M%S" d in
  let filename := "analysis_report.txt" in
  archive_if_exists E analysis_dir archive_dir timestamp filename.

Definition save_analysis_report (analysis_result : option analysis_result)
    (save_to_analysis_folder : bool) : M (option string) :=
  if negb (truthy analysis_result) then ret None
  else
    let analysis_text := text_of analysis_result in
    let! target :=
      (if save_to_analysis_folder then
         archive_existing_analysis >>
         let analysis_dir := "analysis" in
         makedirs analysis_dir >>
         ret (PyStr.path_join analysis_dir "analysis_report.txt",
              "analysis/analysis_report.txt")
       else
         let! d := now E in
         let timestamp := strftime "%Y%m%d_%H%M%S" d in
         let report_filename := "analysis_report_" ++ timestamp ++ ".txt" in
         ret (report_filename, report_filename)) in
    let '(report_filename, location_msg) := (target : string * string) in
    try_except
      (write_file E report_filename
         (let! d := now E in ret (report_text analysis_text d)) >>
       print ("📄 Analysis report saved to: " ++ location_msg) >>
       ret (Some report_filename))
      is_Exception
      (fun e =>
         print ("❌ Error saving report: " ++ exn_str e) >>
         ret None).

(** Each of the first two steps runs under [try: ... except Exception]. *)
Definition run_complete_pipeline : M bool :=
  print (rule 80) >>
  print "🏭 COMPLETE INDUSTRIAL PROCESS MONITORING PIPELINE" >>
  print (rule 80) >>
  let! d := now E in
  print ("Pipeline started at: " ++ strftime "%Y-%m-%d %H:%M:%S" d) >>
  print EmptyString >>
  (* Step 1: Generate synthetic data *)
  print "STEP 1: Generating synthetic data..." >>
  print (PyStr.str_mul "-" 50) >>
  let! step1 :=
    try_except
      (SynthData.generate_and_save_data E >>
       print "✅ Data generation completed successfully" >>
       ret true)
      is_Exception
      (fun e => print ("❌ Error in data generation: " ++ exn_str e) >>
                ret false) in
  if negb step1 then ret false
  else
  print EmptyString >>
  (* Step 2: Create visualization *)
  print "STEP 2: Creating visualization..." >>
  print (PyStr.str_mul "-" 50) >>
  let! step2 :=
    try_except
      (PlotData.create_dashboard E >>
       print "✅ Visualization created successfully" >>
       ret true)
      is_Exception
      (fun e => print ("❌ Error in visualization: " ++ exn_str e) >>
                ret false) in
  if negb step2 then ret false
  else
  print EmptyString >>
  (* Step 3: AI Analysis *)
  print "STEP 3: AI-Powered Anomaly Analysis..." >>
  print (PyStr.str_mul "-" 50) >>
  let! analysis_result := run_plot_analysis in
  (if truthy analysis_result then
     print "✅ AI Analysis completed successfully" >>
     save_analysis_report analysis_result true >>
     print EmptyString >>
     print "🔍 ANALYSIS RESULTS:" >>
     print (rule 50) >>
     let analysis_text := text_of analysis_result in
     print analysis_text >>
     print (rule 50)
   else
     print "❌ AI Analysis failed or skipped") >>
  print EmptyString >>
  print (rule 80) >>
  let! d := now E in
  print ("Pipeline completed at: " ++ strftime "%Y-%m-%d %H:%M:%S" d) >>
  print (rule 80) >>
  ret true.

(** [analysis_text[:200] + "..." if len(analysis_text) > 200 else analysis_text] *)
Definition summary_of (analysis_text : string) : string :=
  if (200 <? String.length analysis_text)%nat
  then PyStr.take_str 200 analysis_text ++ "..."
  else analysis_text.

Definition cycle_banner (cycle_count : nat) : string :=
  newline ++ "🔄 PIPELINE CYCLE #" ++ PyStr.str_of_nat cycle_count.

(** The handler of [except KeyboardInterrupt] in [run_continuous_pipeline] *)
Definition on_keyboard_interrupt (cycle_count : nat) : M unit :=
  print (newline ++ newline ++ "🛑 Pipeline stopped after "
         ++ PyStr.str_of_nat cycle_count ++ " cycles") >>
  print "Final files available:" >>
  print "- data/events.csv" >>
  print "- data/sensors.csv" >>
  print "- images/culprit_signals_analysis.png" >>
  print "- analysis/analysis_report.txt".

(** The [while True] loop.  It only ends when the user interrupts it, or
    when an exception escapes a cycle; [cycles] is the number of iterations
    that start before the KeyboardInterrupt arrives, which the enclosing
    handler then reports with the value [cycle_count] has reached.
    A [continue] of the source is the recursive call. *)
Fixpoint pipeline_loop (interval_seconds : nat) (cycle_count : nat)
    (cycles : nat) : M unit :=
  match cycles with
  | O => on_keyboard_interrupt cycle_count
  | S remaining =>
      let cycle_count := S cycle_count in
      print (cycle_banner cycle_count) >>
      print (rule 60) >>
      (* Step 1: Generate synthetic data *)
      print "📊 Generating synthetic data..." >>
      let! step1 :=
        try_except
          (SynthData.generate_and_save_data E >> ret true)
          is_Exception
          (fun e => print ("❌ Data generation error: " ++ exn_str e) >>
                    ret false) in
      if negb step1 then pipeline_loop interval_seconds cycle_count remaining
      else
      (* Step 2: Create visualization *)
      print "📈 Creating visualization..." >>
      let! step2 :=
        try_except
          (PlotData.create_dashboard E >> ret true)
          is_Exception
          (fun e => print ("❌ Visualization error: " ++ exn_str e) >>
                    ret false) in
      if negb step2 then pipeline_loop interval_seconds cycle_count remaining
      else
      (* Step 3: AI Analysis *)
      print "🤖 Running AI analysis..." >>
      let! analysis_result := run_plot_analysis in
      (if truthy analysis_result then
         save_analysis_report analysis_result true >>
         let! d := now E in
         print ("✅ Cycle #" ++ PyStr.str_of_nat cycle_count
                ++ " completed with analysis at " ++ strftime "%H:%M:%S" d) >>
         print "📋 Latest Analysis Summary:" >>
         let analysis_text := text_of analysis_result in
         let summary := summary_of analysis_text in
         print ("   " ++ summary)
       else
         let! d := now E in
         print ("⚠️  Cycle #" ++ PyStr.str_of_nat cycle_count
                ++ " completed (analysis failed) at " ++ strftime "%H:%M:%S" d)) >>
      print ("⏳ Waiting " ++ PyStr.str_of_nat interval_seconds
             ++ " seconds for next cycle...") >>
      (* Wait for next cycle *)
      sleep interval_seconds >>
      pipeline_loop interval_seconds cycle_count remaining
  end.

Definition run_continuous_pipeline (interval_seconds : nat) (cycles : nat)
  : M unit :=
  print (rule 80) >>
  print "🔄 CONTINUOUS INDUSTRIAL PROCESS MONITORING PIPELINE" >>
  print (rule 80) >>
  print ("Running continuous pipeline every "
         ++ PyStr.str_of_nat interval_seconds ++ " seconds") >>
  print "Press Ctrl+C to stop" >>
  print EmptyString >>
  let cycle_count := 0%nat in
  pipeline_loop interval_seconds cycle_count cycles.


End Program.

End Pipeline.

(** ** streamlit_app.py: the status messages *)

Module StreamlitApp.

Import Datetime.



End StreamlitApp.

(** ** Vocabulary of the properties *)

Module Props.

Import Datetime Py.

(** The timestamp format of the three rotation routines *)
Definition stamp (d : datetime) : string := strftime "%Y%m%d_%H%M%S" d.

(** 8 digits, an underscore, 6 digits *)
Definition timestamp_shape (ts : string) : Prop :=
  String.length ts = 15%nat /\
  PyStr.all_digits (PyStr.take_str 8 ts) = true /\
  String.get 8 ts = Some "_"%char /\
  PyStr.all_digits (PyStr.drop_str 9 ts) = true.

(** The regular files once the file at [cur], if there is one, has been
    renamed to [arch]. *)
Definition rotated (cur arch : string) (fs : gmap string string)
  : gmap string string :=
  match fs !! cur with
  | Some c => <[arch := c]> (delete cur fs)
  | None => fs
  end.

(** The world the block [archive_if_exists] leaves when the move goes
    through. *)
Definition after_rotation (cur arch filename aname : string) (w : world)
  : world :=
  match files w !! cur with
  | Some c =>
      emit (Printed ("Archived " ++ filename ++ " to " ++ aname))
        (emit (Moved cur arch)
           (set_files (<[arch := c]> (delete cur (files w))) w))
  | None => w
  end.

(** The directories [os.makedirs(p, exist_ok=True)] makes sure of *)
Definition made_dirs (p : string) : gset string :=
  list_to_set (dir_chain EmptyString p).

(** The three domains the mechanism is repeated for: the pair of data
    tables, the chart image, the text report. *)
Inductive domain := Data | Plot | Report.

Definition rotation (E : env) (d : domain) : M unit :=
  match d with
  | Data => SynthData.archive_existing_files E
  | Plot => PlotData.archive_existing_plot E
  | Report => Pipeline.archive_existing_analysis E
  end.

Definition current_dir (d : domain) : string :=
  match d with
  | Data => "data"
  | Plot => "images"
  | Report => "analysis"
  end.

Definition archive_dir (d : domain) : string :=
  match d with
  | Data => "data/archive"
  | Plot => "images/archive"
  | Report => "analysis/archive"
  end.

(** The file names a rotation looks for, in the order it does *)
Definition current_names (d : domain) : list string :=
  match d with
  | Data => ["events.csv"; "sensors.csv"]
  | Plot => ["culprit_signals_analysis.png"]
  | Report => ["analysis_report.txt"]
  end.

Definition cur_path (d : domain) (f : string) : string :=
  PyStr.path_join (current_dir d) f.

Definition arch_path (d : domain) (ts f : string) : string :=
  PyStr.path_join (archive_dir d) (archived_name f ts).

(** The world in which a rotation starts to look for files: directories
    made sure of, clock read once. *)
Definition prepared (d : domain) (w : world) : world :=
  tick (add_dirs (made_dirs (archive_dir d))
          (match d with
           | Report => add_dirs (made_dirs "analysis") w
           | _ => w
           end)).

Definition rotate_all (d : domain) (ts : string) (w : world) : world :=
  fold_left
    (fun w f => after_rotation (cur_path d f) (arch_path d ts f) f
                  (archived_name f ts) w)
    (current_names d) w.

(** The files whose path satisfies [P] are the same in both worlds. *)
Definition untouched (P : string -> bool) (w w' : world) : Prop :=
  forall p, P p = true -> files w' !! p = files w !! p.

(** A computation that leaves the files selected by [P] alone and raises
    nothing but exceptions derived from Exception. *)
Definition tame {A} (P : string -> bool) (m : M A) : Prop :=
  forall w,
    untouched P w (snd (m w)) /\
    match fst (m w) with
    | Raise e => is_Exception e = true
    | Ok _ => True
    end.

(** The paths of the analysis folder and of what is below it *)
Definition under_analysis (p : string) : bool := PyStr.startswith "analysis" p.

(** The events logged between two worlds *)
Definition logged_since (w w' : world) (evs : list event) : Prop :=
  log w' = (log w ++ evs)%list.

(** pandas reads the CSV text: it is not empty and it parses. *)
Definition csv_parses (E : env) (text : string) : Prop :=
  (String.length text =? 0)%nat = false /\ parse_error E text = None.

(** Both tables load: they parse and their Time columns convert. *)
Definition tables_load (E : env) (events sensors : string) : Prop :=
  csv_parses E events /\ csv_parses E sensors /\
  time_error E events = None /\ time_error E sensors = None.

(** The operating system lets every move, resp. every write, go through. *)
Definition moves_succeed (E : env) : Prop :=
  forall w src dst, move_error E w src dst = None.

Definition writes_succeed (E : env) : Prop :=
  forall w p, write_error E w p = None.

(** Postcondition of archive-then-write for one logical name: the current
    path holds the new content, and among the archive entries of that name
    (the paths that start with [entry_prefix]) exactly one is new; it holds
    the old content, and the others are as they were. *)
Definition archive_then_write_post
    (cur entry_prefix old_content new_content : string) (w w' : world) : Prop :=
  files w' !! cur = Some new_content /\
  exists p,
    PyStr.startswith entry_prefix p = true /\
    files w !! p = None /\
    files w' !! p = Some old_content /\
    forall q, PyStr.startswith entry_prefix q = true -> q <> p ->
              files w' !! q = files w !! q.

Definition is_write (e : event) : bool :=
  match e with Wrote _ => true | _ => false end.

Definition is_move (e : event) : bool :=
  match e with Moved _ _ => true | _ => false end.

Definition is_sleep (e : event) : bool :=
  match e with Slept _ => true | _ => false end.

(** A console line that opens a cycle of the continuous pipeline *)
Definition is_cycle_start (e : event) : bool :=
  match e with
  | Printed line =>
      PyStr.startswith (Pipeline.newline ++ "🔄 PIPELINE CYCLE #") line
  | _ => false
  end.

(** Every cycle start but the first comes after a sleep that follows the
    cycle start before it.  [slept] tells whether a sleep has been seen
    since the last cycle start. *)
Fixpoint sleep_separated_from (slept : bool) (l : list event) : bool :=
  match l with
  | [] => true
  | e :: r =>
      if is_cycle_start e then slept && sleep_separated_from false r
      else sleep_separated_from (slept || is_sleep e) r
  end.

Definition sleep_separated (l : list event) : bool :=
  sleep_separated_from true l.

(** [s.split(newline)] *)
Fixpoint split_lines (s : string) : list string :=
  match s with
  | EmptyString => [EmptyString]
  | String c r =>
      if Ascii.eqb c (ascii_of_nat 10) then EmptyString :: split_lines r
      else match split_lines r with
           | l :: ls => String c l :: ls
           | [] => [String c EmptyString]
           end
  end.

Fixpoint no_newline (s : string) : bool :=
  match s with
  | EmptyString => true
  | String c r => negb (Ascii.eqb c (ascii_of_nat 10)) && no_newline r
  end.

(** The lines of a text file: the pieces between newlines, without the
    empty piece after a final newline. *)
Definition file_lines (s : string) : list string :=
  match rev (split_lines s) with
  | EmptyString :: r => rev r
  | _ => split_lines s
  end.

(** A rule: a non-empty line made of "=" only *)
Fixpoint only_equals (s : string) : bool :=
  match s with
  | EmptyString => true
  | String c r => Ascii.eqb c "=" && only_equals r
  end.

Definition is_rule (s : string) : bool :=
  negb (String.length s =? 0)%nat && only_equals s.

(** The report layout in the words of the specification: a banner (rule,
    title line, generation-timestamp line, source-artifact line, rule), the
    raw model output, a closing rule, and no other line. *)
Definition report_layout_spec (analysis_text : string) (ls : list string)
  : Prop :=
  exists r1 title generated source r2 r3,
    is_rule r1 = true /\ is_rule r2 = true /\ is_rule r3 = true /\
    ls = ([r1; title; generated; source; r2]
          ++ file_lines analysis_text ++ [r3])%list.

(** The layout the nine writes produce, line by line *)
Definition report_layout_code (analysis_text : string) (d : datetime)
  : list string :=
  ([Pipeline.rule 80;
    "INDUSTRIAL PROCESS MONITORING - ANOMALY ANALYSIS REPORT";
    Pipeline.rule 80;
    ("Generated at: " ++ strftime "%Y-%m-%d %H:%M:%S" d)%string;
    "Source plot: images/culprit_signals_analysis.png";
    Pipeline.rule 80;
    EmptyString]
   ++ split_lines analysis_text
   ++ [EmptyString; Pipeline.rule 80; "End of Report"])%list.

(** [k] characters, all of them decimal digits *)
Definition fixed_digits (k : nat) (s : string) : bool :=
  (String.length s =? k)%nat && PyStr.all_digits s.


(** The computation appends events to the log that all satisfy [Q]. *)
Definition emits {A} (Q : event -> bool) (m : M A) : Prop :=
  forall w, exists evs,
    log (snd (m w)) = (log w ++ evs)%list /\ forallb Q evs = true.

(** The four current-location paths *)
Definition is_current_path (p : string) : bool :=
  String.eqb p "data/events.csv" || String.eqb p "data/sensors.csv"
  || String.eqb p "images/culprit_signals_analysis.png"
  || String.eqb p "analysis/analysis_report.txt".

(** A move from a current-location path to an archive entry of its own
    logical name *)
Definition is_rotation_move (src dst : string) : bool :=
  (String.eqb src "data/events.csv"
   && PyStr.startswith "data/archive/events_" dst)
  || (String.eqb src "data/sensors.csv"
      && PyStr.startswith "data/archive/sensors_" dst)
  || (String.eqb src "images/culprit_signals_analysis.png"
      && PyStr.startswith "images/archive/culprit_signals_analysis_" dst)
  || (String.eqb src "analysis/analysis_report.txt"
      && PyStr.startswith "analysis/archive/analysis_report_" dst).

(** The effects of a pipeline cycle: console lines, writes to the four
    current paths, rotation moves; [naps] says which sleeps are in order. *)
Definition cycle_effect (naps : nat -> bool) (e : event) : bool :=
  match e with
  | Printed _ => true
  | Slept secs => naps secs
  | Wrote p => is_current_path p
  | Moved src dst => is_rotation_move src dst
  end.







(** *** Sample worlds and collaborators *)

Definition noon : datetime := mkDatetime 2025 9 13 12 0 0 0.

(** Same second as [noon], a little later *)
Definition noon_later : datetime := mkDatetime 2025 9 13 12 0 0 730.

Definition next_second : datetime := mkDatetime 2025 9 13 12 0 1 5.

(** Nothing fails; the clock stands at noon; the model answers "ok". *)
Definition calm : env :=
  mkEnv (fun _ => noon) (fun _ _ _ => None) (fun _ _ => None)
        (fun _ => ("ev2", "sn2")) (fun _ => 20%nat)
        (fun _ => None) (fun _ => None) (fun _ _ => "png2") (fun _ _ => None)
        (fun _ => VlmReturns (GenerationResult "ok")).

(** As [calm], with a clock that moves to the next second after the first
    reading. *)
Definition ticking : env :=
  mkEnv (fun n => match n with O => noon | _ => next_second end)
        (fun _ _ _ => None) (fun _ _ => None)
        (fun _ => ("ev2", "sn2")) (fun _ => 20%nat)
        (fun _ => None) (fun _ => None) (fun _ _ => "png2") (fun _ _ => None)
        (fun _ => VlmReturns (GenerationResult "ok")).

(** Two readings within one second, then on to the next second *)
Definition hasty : env :=
  mkEnv (fun n => match n with
                  | O => noon
                  | S O => noon_later
                  | _ => next_second
                  end)
        (fun _ _ _ => None) (fun _ _ => None)
        (fun _ => ("ev2", "sn2")) (fun _ => 20%nat)
        (fun _ => None) (fun _ => None) (fun _ _ => "png2") (fun _ _ => None)
        (fun _ => VlmReturns (GenerationResult "ok")).

(** Every move is refused. *)
Definition no_moves : env :=
  mkEnv (fun _ => noon) (fun _ _ _ => Some "Permission denied")
        (fun _ _ => None)
        (fun _ => ("ev2", "sn2")) (fun _ => 20%nat)
        (fun _ => None) (fun _ => None) (fun _ _ => "png2") (fun _ _ => None)
        (fun _ => VlmReturns (GenerationResult "ok")).

(** Every write is refused. *)
Definition disk_full : env :=
  mkEnv (fun _ => noon) (fun _ _ _ => None)
        (fun _ _ => Some "No space left on device")
        (fun _ => ("ev2", "sn2")) (fun _ => 20%nat)
        (fun _ => None) (fun _ => None) (fun _ _ => "png2") (fun _ _ => None)
        (fun _ => VlmReturns (GenerationResult "ok")).

(** The report in place cannot be moved; every other move goes through. *)
Definition report_locked : env :=
  mkEnv (fun _ => noon)
        (fun _ src _ =>
           if PyStr.startswith "analysis" src then Some "Permission denied"
           else None)
        (fun _ _ => None)
        (fun _ => ("ev2", "sn2")) (fun _ => 20%nat)
        (fun _ => None) (fun _ => None) (fun _ _ => "png2") (fun _ _ => None)
        (fun _ => VlmReturns (GenerationResult "ok")).

(** The cycle starts and the sleeps of a log, in order *)
Definition cycle_marks (l : list event) : list event :=
  filter (fun e => is_cycle_start e || is_sleep e) l.


(** The inference library cannot be imported. *)
Definition no_vlm : env :=
  mkEnv (fun _ => noon) (fun _ _ _ => None) (fun _ _ => None)
        (fun _ => ("ev2", "sn2")) (fun _ => 20%nat)
        (fun _ => None) (fun _ => None) (fun _ _ => "png2") (fun _ _ => None)
        (fun _ => VlmRaises AtImport true "No module named mlx_vlm").

Definition empty_world : world := mkWorld ∅ ∅ [] 0.

(** A world after one earlier cycle *)
Definition used_world : world :=
  mkWorld
    (<["data/events.csv" := "ev1"]>
     (<["data/sensors.csv" := "sn1"]>
      (<["images/culprit_signals_analysis.png" := "png1"]>
       (<["analysis/analysis_report.txt" := "v1"]> ∅))))
    {[ "data"; "data/archive"; "images"; "images/archive";
       "analysis"; "analysis/archive" ]}
    [] 0.

(** [used_world] without its sensors table *)
Definition sensors_lost_world : world :=
  set_files (delete "data/sensors.csv" (files used_world)) used_world.

(** [used_world] with an empty events table and no sensors table, as a
    refused or interrupted write of the tables can leave it *)
Definition empty_events_world : world :=
  set_files
    (<["data/events.csv" := EmptyString]>
       (delete "data/sensors.csv" (files used_world)))
    used_world.

(** [used_world] with an archive entry already under the name that a
    rotation at [noon] computes *)
Definition collided_world : world :=
  set_files
    (<["analysis/archive/analysis_report_20250913_120000.txt" := "v0"]>
       (files used_world))
    used_world.

End Props.

(** ** Facts about the rotation block and the three routines *)

Module Facts.

Import Datetime Py Props.

(** Closes a goal [s1 <> s2] between paths that differ in their literal
    part. *)
Ltac paths_differ :=
  let H := fresh "Heq" in
  intro H; vm_compute in H; discriminate H.

(** Closes a goal [q <> s] when [Hq] says that [q] starts with a prefix
    that [s] does not have, or when the two differ literally. *)
Ltac other_path Hq :=
  let Heq := fresh "Heq" in
  intro Heq;
  first [ subst; vm_compute in Hq; discriminate Hq
        | vm_compute in Heq; discriminate Heq
        | congruence ].

Lemma cur_path_table :
  cur_path Data "events.csv" = "data/events.csv" /\
  cur_path Data "sensors.csv" = "data/sensors.csv" /\
  cur_path Plot "culprit_signals_analysis.png"
  = "images/culprit_signals_analysis.png" /\
  cur_path Report "analysis_report.txt" = "analysis/analysis_report.txt".
Proof. repeat split; reflexivity. Qed.

Lemma arch_path_table ts :
  arch_path Data ts "events.csv" = "data/archive/events_" ++ ts ++ ".csv" /\
  arch_path Data ts "sensors.csv" = "data/archive/sensors_" ++ ts ++ ".csv" /\
  arch_path Plot ts "culprit_signals_analysis.png"
  = "images/archive/culprit_signals_analysis_" ++ ts ++ ".png" /\
  arch_path Report ts "analysis_report.txt"
  = "analysis/archive/analysis_report_" ++ ts ++ ".txt".
Proof. repeat split; reflexivity. Qed.

Lemma bind_ret_tt (m : M unit) w : (m >> ret tt) w = m w.
Proof. unfold bind, ret. destruct (m w) as [[[]|e] w1]; reflexivity. Qed.

Lemma files_after_rotation cur arch f a w :
  files (after_rotation cur arch f a w) = rotated cur arch (files w).
Proof.
  unfold after_rotation, rotated. destruct (files w !! cur); reflexivity.
Qed.

Lemma dirs_after_rotation cur arch f a w :
  dirs (after_rotation cur arch f a w) = dirs w.
Proof. unfold after_rotation. destruct (files w !! cur); reflexivity. Qed.

Lemma reads_after_rotation cur arch f a w :
  reads (after_rotation cur arch f a w) = reads w.
Proof. unfold after_rotation. destruct (files w !! cur); reflexivity. Qed.

Lemma after_rotation_absent cur arch f a w :
  files w !! cur = None -> after_rotation cur arch f a w = w.
Proof. intros H. unfold after_rotation. rewrite H. reflexivity. Qed.

Lemma rotated_present cur arch fs c :
  fs !! cur = Some c -> rotated cur arch fs = <[arch := c]> (delete cur fs).
Proof. intros H. unfold rotated. rewrite H. reflexivity. Qed.

Section Rotation.

Variable E : env.

Lemma archive_if_exists_absent dir adir ts f w :
  files w !! PyStr.path_join dir f = None ->
  archive_if_exists E dir adir ts f w = (Ok tt, w).
Proof.
  intros H. unfold archive_if_exists, bind, path_exists. rewrite H.
  rewrite bool_decide_eq_false_2; [reflexivity|].
  intros [x Hx]. discriminate Hx.
Qed.

Lemma archive_if_exists_moved dir adir ts f w c :
  files w !! PyStr.path_join dir f = Some c ->
  move_error E w (PyStr.path_join dir f)
    (PyStr.path_join adir (archived_name f ts)) = None ->
  archive_if_exists E dir adir ts f w =
    (Ok tt,
     after_rotation (PyStr.path_join dir f)
       (PyStr.path_join adir (archived_name f ts)) f (archived_name f ts) w).
Proof.
  intros H Hm. unfold archive_if_exists, bind, path_exists, after_rotation.
  rewrite H. rewrite bool_decide_eq_true_2 by eauto.
  unfold shutil_move. rewrite H, Hm. reflexivity.
Qed.

Lemma archive_if_exists_refused dir adir ts f w c msg :
  files w !! PyStr.path_join dir f = Some c ->
  move_error E w (PyStr.path_join dir f)
    (PyStr.path_join adir (archived_name f ts)) = Some msg ->
  archive_if_exists E dir adir ts f w = (Raise (OSError msg), w).
Proof.
  intros H Hm. unfold archive_if_exists, bind, path_exists.
  rewrite H. rewrite bool_decide_eq_true_2 by eauto.
  unfold shutil_move. rewrite H, Hm. reflexivity.
Qed.

Lemma archive_if_exists_ok dir adir ts f w :
  moves_succeed E ->
  archive_if_exists E dir adir ts f w =
    (Ok tt,
     after_rotation (PyStr.path_join dir f)
       (PyStr.path_join adir (archived_name f ts)) f (archived_name f ts) w).
Proof.
  intros Hm.
  destruct (files w !! PyStr.path_join dir f) as [c|] eqn:H.
  - apply archive_if_exists_moved with c; [exact H | apply Hm].
  - rewrite after_rotation_absent by exact H.
    apply archive_if_exists_absent; exact H.
Qed.

(** The block either returns, or raises the OSError of the refused move
    and leaves the world as it found it. *)
Lemma archive_if_exists_cases dir adir ts f w :
  (exists w', archive_if_exists E dir adir ts f w = (Ok tt, w') /\
     w' = after_rotation (PyStr.path_join dir f)
            (PyStr.path_join adir (archived_name f ts)) f (archived_name f ts) w)
  \/ (exists msg c, archive_if_exists E dir adir ts f w = (Raise (OSError msg), w)
        /\ files w !! PyStr.path_join dir f = Some c).
Proof.
  destruct (files w !! PyStr.path_join dir f) as [c|] eqn:H.
  - destruct (move_error E w (PyStr.path_join dir f)
                (PyStr.path_join adir (archived_name f ts))) as [msg|] eqn:Hm.
    + right. exists msg, c. split; [|reflexivity].
      eapply archive_if_exists_refused; eassumption.
    + left. eexists. split; [|reflexivity].
      eapply archive_if_exists_moved; eassumption.
  - left. exists w. split.
    + apply archive_if_exists_absent; exact H.
    + symmetry. apply after_rotation_absent; exact H.
Qed.

Lemma archive_existing_analysis_unfold w :
  Pipeline.archive_existing_analysis E w =
  archive_if_exists E "analysis" "analysis/archive"
    (stamp (clock E (reads w))) "analysis_report.txt"
    (tick (add_dirs (made_dirs "analysis/archive")
             (add_dirs (made_dirs "analysis") w))).
Proof. reflexivity. Qed.

Lemma archive_existing_plot_unfold w :
  PlotData.archive_existing_plot E w =
  archive_if_exists E "images" "images/archive"
    (stamp (clock E (reads w))) "culprit_signals_analysis.png"
    (tick (add_dirs (made_dirs "images/archive") w)).
Proof. reflexivity. Qed.

Lemma archive_existing_files_unfold w :
  SynthData.archive_existing_files E w =
  for_each ["events.csv"; "sensors.csv"]
    (fun f => archive_if_exists E "data" "data/archive"
                (stamp (clock E (reads w))) f)
    (tick (add_dirs (made_dirs "data/archive") w)).
Proof. reflexivity. Qed.

Lemma rotation_unfold d w :
  rotation E d w =
  for_each (current_names d)
    (fun f => archive_if_exists E (current_dir d) (archive_dir d)
                (stamp (clock E (reads w))) f)
    (prepared d w).
Proof.
  destruct d; [reflexivity | |]; unfold for_each, current_names;
    rewrite bind_ret_tt; reflexivity.
Qed.

Lemma rotation_ok d w :
  moves_succeed E ->
  rotation E d w = (Ok tt, rotate_all d (stamp (clock E (reads w))) (prepared d w)).
Proof.
  intros Hm. rewrite rotation_unfold.
  destruct d; unfold current_names, for_each, bind;
    rewrite !archive_if_exists_ok by exact Hm; reflexivity.
Qed.

End Rotation.

Lemma made_dirs_table :
  made_dirs "data/archive" = {[ "data"; "data/archive" ]} /\
  made_dirs "images/archive" = {[ "images"; "images/archive" ]} /\
  made_dirs "analysis" = {[ "analysis" ]} /\
  made_dirs "analysis/archive" = {[ "analysis"; "analysis/archive" ]}.
Proof. repeat split; vm_compute; reflexivity. Qed.

Lemma files_prepared d w : files (prepared d w) = files w.
Proof. destruct d; reflexivity. Qed.

Lemma reads_prepared d w : reads (prepared d w) = S (reads w).
Proof. destruct d; reflexivity. Qed.

Lemma reads_rotate_all d ts w : reads (rotate_all d ts w) = reads w.
Proof.
  unfold rotate_all. destruct d; unfold current_names, fold_left;
    rewrite ?reads_after_rotation; reflexivity.
Qed.

Lemma files_rotate_all_data ts w :
  files (rotate_all Data ts w) =
  rotated "data/sensors.csv" ("data/archive/sensors_" ++ ts ++ ".csv")
    (rotated "data/events.csv" ("data/archive/events_" ++ ts ++ ".csv") (files w)).
Proof.
  unfold rotate_all, current_names, fold_left.
  rewrite !files_after_rotation. reflexivity.
Qed.

Lemma files_rotate_all_plot ts w :
  files (rotate_all Plot ts w) =
  rotated "images/culprit_signals_analysis.png"
    ("images/archive/culprit_signals_analysis_" ++ ts ++ ".png") (files w).
Proof.
  unfold rotate_all, current_names, fold_left.
  rewrite !files_after_rotation. reflexivity.
Qed.

Lemma files_rotate_all_report ts w :
  files (rotate_all Report ts w) =
  rotated "analysis/analysis_report.txt"
    ("analysis/archive/analysis_report_" ++ ts ++ ".txt") (files w).
Proof.
  unfold rotate_all, current_names, fold_left.
  rewrite !files_after_rotation. reflexivity.
Qed.

Lemma lookup_rotated_arch cur arch fs c :
  fs !! cur = Some c -> rotated cur arch fs !! arch = Some c.
Proof. intros H. rewrite (rotated_present _ _ _ _ H). apply lookup_insert_eq. Qed.

Lemma lookup_rotated_cur cur arch fs c :
  fs !! cur = Some c -> arch <> cur -> rotated cur arch fs !! cur = None.
Proof.
  intros H Hne. rewrite (rotated_present _ _ _ _ H).
  rewrite lookup_insert_ne by exact Hne. apply lookup_delete_eq.
Qed.

Lemma lookup_rotated_other cur arch fs p :
  p <> cur -> p <> arch -> rotated cur arch fs !! p = fs !! p.
Proof.
  intros H1 H2. unfold rotated. destruct (fs !! cur); [|reflexivity].
  rewrite lookup_insert_ne by congruence. apply lookup_delete_ne. congruence.
Qed.

Lemma rotation_archives (E : env) (d : domain) (w : world) (f C : string) :
  moves_succeed E ->
  In f (current_names d) ->
  files w !! cur_path d f = Some C ->
  exists w',
    rotation E d w = (Ok tt, w') /\
    files w' !! arch_path d (stamp (clock E (reads w))) f = Some C /\
    files w' !! cur_path d f = None /\
    reads w' = S (reads w).
Proof.
  intros Hm Hin Hcur. eexists. split; [apply rotation_ok; exact Hm|].
  rewrite reads_rotate_all, reads_prepared.
  generalize (stamp (clock E (reads w))). intros ts.
  destruct d; simpl in Hin.
  - rewrite files_rotate_all_data, files_prepared.
    destruct Hin as [<-|[<-|[]]].
    + change (cur_path Data "events.csv") with "data/events.csv" in *.
      change (arch_path Data ts "events.csv") with ("data/archive/events_" ++ ts ++ ".csv").
      rewrite (lookup_rotated_other "data/sensors.csv" _ _ "data/events.csv")
        by paths_differ.
      rewrite (lookup_rotated_other "data/sensors.csv") by paths_differ.
      rewrite (lookup_rotated_arch _ _ _ _ Hcur).
      rewrite (lookup_rotated_cur _ _ _ _ Hcur) by paths_differ. auto.
    + change (cur_path Data "sensors.csv") with "data/sensors.csv" in *.
      change (arch_path Data ts "sensors.csv") with ("data/archive/sensors_" ++ ts ++ ".csv").
      assert (Hs : rotated "data/events.csv" ("data/archive/events_" ++ ts ++ ".csv") (files w) !! "data/sensors.csv" = Some C).
      { rewrite lookup_rotated_other by paths_differ. exact Hcur. }
      rewrite (lookup_rotated_arch _ _ _ _ Hs).
      rewrite (lookup_rotated_cur _ _ _ _ Hs) by paths_differ. auto.
  - rewrite files_rotate_all_plot, files_prepared.
    destruct Hin as [<-|[]].
    change (cur_path Plot "culprit_signals_analysis.png") with "images/culprit_signals_analysis.png" in *.
    change (arch_path Plot ts "culprit_signals_analysis.png") with ("images/archive/culprit_signals_analysis_" ++ ts ++ ".png").
    rewrite (lookup_rotated_arch _ _ _ _ Hcur).
    rewrite (lookup_rotated_cur _ _ _ _ Hcur) by paths_differ. auto.
  - rewrite files_rotate_all_report, files_prepared.
    destruct Hin as [<-|[]].
    change (cur_path Report "analysis_report.txt") with "analysis/analysis_report.txt" in *.
    change (arch_path Report ts "analysis_report.txt") with ("analysis/archive/analysis_report_" ++ ts ++ ".txt").
    rewrite (lookup_rotated_arch _ _ _ _ Hcur).
    rewrite (lookup_rotated_cur _ _ _ _ Hcur) by paths_differ. auto.
Qed.

(** *** Timestamps *)

Lemma length_append (a b : string) :
  String.length (a ++ b) = (String.length a + String.length b)%nat.
Proof.
  induction a as [|c r IH]; [reflexivity|].
  change (String c r ++ b) with (String c (r ++ b)).
  cbn [String.length]. rewrite IH. reflexivity.
Qed.

Lemma length_str_mul_char c k :
  String.length (PyStr.str_mul (String c EmptyString) k) = k.
Proof.
  induction k as [|k IH]; [reflexivity|]. cbn [PyStr.str_mul].
  rewrite length_append, IH. reflexivity.
Qed.

Lemma is_digit_digit_char k : PyStr.is_digit (PyStr.digit_char k) = true.
Proof. do 10 (destruct k as [|k]; [reflexivity|]). reflexivity. Qed.

Lemma all_digits_decimal_digits fuel n acc :
  PyStr.all_digits acc = true ->
  PyStr.all_digits (PyStr.decimal_digits fuel n acc) = true.
Proof.
  revert n acc. induction fuel as [|fuel IH]; intros n acc Hacc; [exact Hacc|].
  cbn [PyStr.decimal_digits].
  assert (Hacc' : PyStr.all_digits
                    (String (PyStr.digit_char (n mod 10)) acc) = true).
  { cbn [PyStr.all_digits]. rewrite is_digit_digit_char. exact Hacc. }
  destruct (n <? 10)%nat; [exact Hacc'|]. apply IH. exact Hacc'.
Qed.

Lemma length_decimal_digits k :
  forall fuel n acc,
    (0 < k)%nat -> (n < 10 ^ k)%nat ->
    (0 < fuel)%nat -> (n < 10 ^ fuel)%nat ->
    (String.length acc < String.length (PyStr.decimal_digits fuel n acc)
     <= k + String.length acc)%nat.
Proof.
  induction k as [|k IH]; intros fuel n acc Hk Hn Hfuel Hnf; [lia|].
  destruct fuel as [|fuel]; [lia|]. cbn [PyStr.decimal_digits].
  destruct (n <? 10)%nat eqn:Hlt; [cbn [String.length]; lia|].
  apply Nat.ltb_ge in Hlt.
  assert (Hk1 : (0 < k)%nat).
  { destruct k; [|lia]. simpl in Hn. lia. }
  assert (Hf1 : (0 < fuel)%nat).
  { destruct fuel; [|lia]. simpl in Hnf. lia. }
  assert (Hdiv : (n / 10 < 10 ^ k)%nat).
  { apply Nat.Div0.div_lt_upper_bound. rewrite Nat.pow_succ_r' in Hn. exact Hn. }
  assert (Hdivf : (n / 10 < 10 ^ fuel)%nat).
  { apply Nat.Div0.div_lt_upper_bound. rewrite Nat.pow_succ_r' in Hnf. exact Hnf. }
  specialize (IH fuel (n / 10)%nat
                (String (PyStr.digit_char (n mod 10)) acc)
                Hk1 Hdiv Hf1 Hdivf).
  cbn [String.length] in IH. lia.
Qed.

Lemma zero_pad_fixed w n :
  (0 < w)%nat -> (n < 10 ^ w)%nat -> fixed_digits w (PyStr.zero_pad w n) = true.
Proof.
  intros Hw Hn. unfold fixed_digits, PyStr.zero_pad, PyStr.str_of_nat.
  assert (Hfuel : (n < 10 ^ S n)%nat).
  { pose proof (Nat.pow_gt_lin_r 10 (S n) ltac:(lia)). lia. }
  pose proof (length_decimal_digits w (S n) n EmptyString
                Hw Hn ltac:(lia) Hfuel) as Hlen.
  cbn [String.length] in Hlen.
  apply andb_true_intro. split.
  - apply Nat.eqb_eq. rewrite length_append, length_str_mul_char. lia.
  - generalize (PyStr.decimal_digits (S n) n EmptyString)
      (all_digits_decimal_digits (S n) n EmptyString eq_refl).
    intros s Hs. generalize (w - String.length s)%nat. intros k.
    induction k as [|k IH]; [exact Hs|]. exact IH.
Qed.

Lemma zero_pad_2 n : (n < 100)%nat -> fixed_digits 2 (PyStr.zero_pad 2 n) = true.
Proof. intros H. apply zero_pad_fixed; [lia|]. simpl. lia. Qed.

Lemma zero_pad_4 n :
  (n < 100 * 100)%nat -> fixed_digits 4 (PyStr.zero_pad 4 n) = true.
Proof.
  intros H. apply zero_pad_fixed; [lia|].
  change (10 ^ 4)%nat with (100 * 100)%nat. exact H.
Qed.

Lemma fixed_digits_2 s :
  fixed_digits 2 s = true ->
  exists a b, s = String a (String b EmptyString) /\
              PyStr.is_digit a = true /\ PyStr.is_digit b = true.
Proof.
  unfold fixed_digits. intros H. apply andb_prop in H as [Hl Hd].
  destruct s as [|a [|b [|c r]]]; try discriminate Hl.
  simpl in Hd. apply andb_prop in Hd as [Ha Hb]. apply andb_prop in Hb as [Hb _].
  eauto.
Qed.

Lemma fixed_digits_4 s :
  fixed_digits 4 s = true ->
  exists a b c d, s = String a (String b (String c (String d EmptyString))) /\
    PyStr.is_digit a = true /\ PyStr.is_digit b = true /\
    PyStr.is_digit c = true /\ PyStr.is_digit d = true.
Proof.
  unfold fixed_digits. intros H. apply andb_prop in H as [Hl Hd].
  destruct s as [|a [|b [|c [|d [|e r]]]]]; try discriminate Hl.
  simpl in Hd. 
  apply andb_prop in Hd as [Ha Hd]. apply andb_prop in Hd as [Hb Hd].
  apply andb_prop in Hd as [Hc Hd]. apply andb_prop in Hd as [Hd _].
  exists a, b, c, d. auto.
Qed.

Lemma stamp_fields d :
  stamp d = PyStr.zero_pad 4 (year d) ++ PyStr.zero_pad 2 (month d)
            ++ PyStr.zero_pad 2 (day d)
            ++ String "_" (PyStr.zero_pad 2 (hour d)
            ++ PyStr.zero_pad 2 (minute d) ++ PyStr.zero_pad 2 (second d)
            ++ EmptyString).
Proof. reflexivity. Qed.

Lemma stamp_shape d : valid d -> timestamp_shape (stamp d).
Proof.
  intros (Hy1 & Hy2 & [Hm1 Hm2] & [Hd1 Hd2] & HH & HM & HS).
  rewrite stamp_fields.
  destruct (fixed_digits_4 _ (zero_pad_4 (year d) Hy2))
    as (y1 & y2 & y3 & y4 & -> & ? & ? & ? & ?).
  destruct (fixed_digits_2 _ (zero_pad_2 (month d) ltac:(lia)))
    as (m1 & m2 & -> & ? & ?).
  destruct (fixed_digits_2 _ (zero_pad_2 (day d) ltac:(lia)))
    as (d1 & d2 & -> & ? & ?).
  destruct (fixed_digits_2 _ (zero_pad_2 (hour d) ltac:(lia)))
    as (h1 & h2 & -> & ? & ?).
  destruct (fixed_digits_2 _ (zero_pad_2 (minute d) ltac:(lia)))
    as (n1 & n2 & -> & ? & ?).
  destruct (fixed_digits_2 _ (zero_pad_2 (second d) ltac:(lia)))
    as (s1 & s2 & -> & ? & ?).
  unfold timestamp_shape. cbv -[PyStr.is_digit].
  repeat match goal with H : PyStr.is_digit _ = true |- _ => rewrite H; clear H end.
  auto.
Qed.

Lemma stamp_same_second d1 d2 : same_second d1 d2 -> stamp d1 = stamp d2.
Proof.
  intros (Hy & Hm & Hd & HH & HM & HS). rewrite !stamp_fields.
  rewrite Hy, Hm, Hd, HH, HM, HS. reflexivity.
Qed.

Lemma strftime_same_second fmt d1 d2 :
  same_second d1 d2 -> strftime fmt d1 = strftime fmt d2.
Proof.
  intros (Hy & Hm & Hd & HH & HM & HS).
  assert (Hdir : forall c, directive c d1 = directive c d2).
  { intros c. unfold directive. rewrite Hy, Hm, Hd, HH, HM, HS. reflexivity. }
  assert (Hboth : forall fmt, strftime fmt d1 = strftime fmt d2 /\
     forall a, strftime (String a fmt) d1 = strftime (String a fmt) d2).
  { induction fmt0 as [|c r [IH1 IH2]].
    - split; [reflexivity|]. intros a. simpl. destruct (Ascii.eqb a "%"); reflexivity.
    - split; [apply IH2|]. intros a. 
      change (strftime (String a (String c r)) d1) with
        (if Ascii.eqb a "%" then directive c d1 ++ strftime r d1 else String a (strftime (String c r) d1)).
      change (strftime (String a (String c r)) d2) with
        (if Ascii.eqb a "%" then directive c d2 ++ strftime r d2 else String a (strftime (String c r) d2)).
      rewrite Hdir, IH1, IH2. reflexivity. }
  apply Hboth.
Qed.

End Facts.

(** *** Frame and exception discipline *)

Module Frame.

Import Datetime Py Props Facts.

Lemma untouched_refl P w : untouched P w w.
Proof. intros p _. reflexivity. Qed.

Lemma untouched_trans P w1 w2 w3 :
  untouched P w1 w2 -> untouched P w2 w3 -> untouched P w1 w3.
Proof. intros H12 H23 p Hp. rewrite (H23 p Hp). apply H12. exact Hp. Qed.

Lemma untouched_same_files P w w' : files w' = files w -> untouched P w w'.
Proof. intros H p _. rewrite H. reflexivity. Qed.

Section Tame.

Variable E : env.
Variable P : string -> bool.

Lemma tame_ret {A} (a : A) : tame P (ret a).
Proof. intros w. split; [apply untouched_refl | exact I]. Qed.

Lemma tame_raise {A} (e : exn) : is_Exception e = true -> tame P (@raise A e).
Proof. intros He w. split; [apply untouched_refl | exact He]. Qed.

Lemma tame_bind {A B} (m : M A) (k : A -> M B) :
  tame P m -> (forall a, tame P (k a)) -> tame P (bind m k).
Proof.
  intros Hm Hk w. unfold bind. specialize (Hm w).
  destruct (m w) as [[a|e] w1]; simpl in Hm.
  - destruct Hm as [Hu _]. specialize (Hk a w1).
    destruct (k a w1) as [r w2]; simpl in *.
    destruct Hk as [Hu2 Hr]. split; [|exact Hr].
    eapply untouched_trans; eassumption.
  - exact Hm.
Qed.

Lemma tame_try {A} (body : M A) catches handler :
  tame P body -> (forall e, tame P (handler e)) ->
  tame P (try_except body catches handler).
Proof.
  intros Hb Hh w. unfold try_except. specialize (Hb w).
  destruct (body w) as [[a|e] w1]; simpl in Hb.
  - exact Hb.
  - destruct (catches e); [|exact Hb].
    destruct Hb as [Hu _]. specialize (Hh e w1).
    destruct (handler e w1) as [r w2]; simpl in *.
    destruct Hh as [Hu2 Hr]. split; [|exact Hr].
    eapply untouched_trans; eassumption.
Qed.

Lemma tame_print line : tame P (print line).
Proof.
  intros w. split; [apply untouched_same_files; reflexivity | exact I].
Qed.

Lemma tame_now : tame P (now E).
Proof.
  intros w. split; [apply untouched_same_files; reflexivity | exact I].
Qed.

Lemma tame_makedirs p : tame P (makedirs p).
Proof.
  intros w. split; [apply untouched_same_files; reflexivity | exact I].
Qed.

Lemma tame_path_exists p : tame P (path_exists p).
Proof. intros w. split; [apply untouched_refl | exact I]. Qed.

Lemma tame_sample_tables : tame P (sample_tables E).
Proof. intros w. split; [apply untouched_refl | exact I]. Qed.

Lemma tame_read_csv p : tame P (read_csv E p).
Proof.
  intros w. unfold read_csv. destruct (files w !! p) as [text|];
    [destruct (String.length text =? 0)%nat;
       [|destruct (parse_error E text)]|];
    simpl; (split; [apply untouched_refl | auto]).
Qed.

Lemma is_Exception_frame_exn e : is_Exception (frame_exn e) = true.
Proof. destruct e; reflexivity. Qed.

Lemma tame_to_datetime df : tame P (to_datetime E df).
Proof.
  intros w. unfold to_datetime. destruct (time_error E df); simpl;
    (split; [apply untouched_refl | auto using is_Exception_frame_exn]).
Qed.

Lemma tame_draw_figure ev sn : tame P (draw_figure E ev sn).
Proof.
  intros w. unfold draw_figure. destruct (render_error E ev sn); simpl;
    (split; [apply untouched_refl | auto using is_Exception_frame_exn]).
Qed.

Lemma tame_shutil_move src dst :
  P src = false -> P dst = false -> tame P (shutil_move E src dst).
Proof.
  intros Hs Hd w. unfold shutil_move.
  destruct (files w !! src) as [c|]; [|split; [apply untouched_refl|reflexivity]].
  destruct (move_error E w src dst);
    [split; [apply untouched_refl|reflexivity]|].
  split; [|exact I]. intros p Hp. simpl.
  rewrite lookup_insert_ne by (intros ->; congruence).
  apply lookup_delete_ne. intros ->; congruence.
Qed.

Lemma tame_write_file path body :
  P path = false -> tame P body -> tame P (write_file E path body).
Proof.
  intros Hp Hb w. unfold write_file.
  destruct (write_error E w path);
    [split; [apply untouched_refl|reflexivity]|].
  specialize (Hb w). destruct (body w) as [[text|e] w1]; simpl in *; [|exact Hb].
  destruct Hb as [Hu _]. split; [|exact I]. intros p Hpp. simpl.
  rewrite lookup_insert_ne by (intros ->; congruence). apply Hu. exact Hpp.
Qed.

Lemma tame_archive_if_exists dir adir ts f :
  P (PyStr.path_join dir f) = false ->
  P (PyStr.path_join adir (archived_name f ts)) = false ->
  tame P (archive_if_exists E dir adir ts f).
Proof.
  intros Hc Ha. unfold archive_if_exists.
  apply tame_bind; [apply tame_path_exists|]. intros [|]; [|apply tame_ret].
  apply tame_bind; [apply tame_shutil_move; assumption|].
  intros _. apply tame_print.
Qed.

End Tame.

Lemma tame_generate_and_save_data E :
  tame under_analysis (SynthData.generate_and_save_data E).
Proof.
  unfold SynthData.generate_and_save_data, SynthData.archive_existing_files.
  apply tame_bind.
  - apply tame_bind; [apply tame_makedirs|]. intros _.
    apply tame_bind; [apply tame_now|]. intros d.
    generalize (strftime "%Y%m%d_%H%M%S" d). intros ts.
    unfold for_each.
    apply tame_bind; [apply tame_archive_if_exists; reflexivity|]. intros _.
    apply tame_bind; [apply tame_archive_if_exists; reflexivity|]. intros _.
    apply tame_ret.
  - intros _. apply tame_bind; [apply tame_sample_tables|]. intros [ev sn].
    apply tame_bind; [apply tame_write_file; [reflexivity|apply tame_ret]|].
    intros _.
    apply tame_bind; [apply tame_write_file; [reflexivity|apply tame_ret]|].
    intros _. apply tame_bind; [apply tame_now|]. intros d. apply tame_print.
Qed.

Lemma tame_create_dashboard E :
  tame under_analysis (PlotData.create_dashboard E).
Proof.
  unfold PlotData.create_dashboard.
  apply tame_bind.
  - unfold PlotData.load_data. apply tame_try.
    + apply tame_bind; [apply tame_read_csv|]. intros ev.
      apply tame_bind; [apply tame_read_csv|]. intros sn.
      apply tame_bind; [apply tame_to_datetime|]. intros ev'.
      apply tame_bind; [apply tame_to_datetime|]. intros sn'. apply tame_ret.
    + intros e. apply tame_bind; [apply tame_print|]. intros _. apply tame_ret.
  - intros [[ev|] [sn|]]; try apply tame_print.
    apply tame_bind; [apply tame_print|]. intros _.
    apply tame_bind.
    { unfold PlotData.archive_existing_plot.
      apply tame_bind; [apply tame_makedirs|]. intros _.
      apply tame_bind; [apply tame_now|]. intros d.
      generalize (strftime "%Y%m%d_%H%M%S" d). intros ts.
      apply tame_archive_if_exists; reflexivity. }
    intros _. apply tame_bind; [apply tame_print|]. intros _.
    apply tame_bind; [apply tame_draw_figure|]. intros fig.
    apply tame_bind; [apply tame_write_file; [reflexivity|apply tame_ret]|].
    intros _. apply tame_bind; [apply tame_now|]. intros d. apply tame_print.
Qed.

(** A step of the pipeline run under [try ... except Exception]: it always
    hands back a flag. *)
Lemma guarded_step_returns P (body : M unit) (after : M bool)
    (handler : exn -> M bool) w :
  tame P body ->
  (forall w0, exists b, after w0 = (Ok b, w0) \/
                        exists l, after w0 = (Ok b, emit (Printed l) w0)) ->
  (forall e w0, exists b l, handler e w0 = (Ok b, emit (Printed l) w0)) ->
  exists b w',
    try_except (body >> after) is_Exception handler w = (Ok b, w') /\
    untouched P w w'.
Proof.
  intros Hb Ha Hh. unfold try_except, bind.
  specialize (Hb w). destruct (body w) as [[[]|e] w1]; simpl in Hb.
  - destruct Hb as [Hu _]. destruct (Ha w1) as (b & [Hab | (l & Hab)]);
      rewrite Hab; exists b; eexists; (split; [reflexivity|]).
    + exact Hu.
    + eapply untouched_trans; [exact Hu|].
      apply untouched_same_files. reflexivity.
  - destruct Hb as [Hu He]. rewrite He.
    destruct (Hh e w1) as (b & l & Hhe). rewrite Hhe.
    exists b. eexists. split; [reflexivity|].
    eapply untouched_trans; [exact Hu|].
    apply untouched_same_files. reflexivity.
Qed.

End Frame.

(** *** The text of the report *)

Module ReportFacts.

Import Datetime Py Props Facts.

Lemma all_digits_no_newline s : PyStr.all_digits s = true -> no_newline s = true.
Proof.
  induction s as [|c r IH]; [reflexivity|]. simpl. intros H.
  apply andb_prop in H as [Hc Hr]. rewrite (IH Hr), andb_true_r.
  destruct (Ascii.eqb c (ascii_of_nat 10)) eqn:Hc10; [|reflexivity].
  apply Ascii.eqb_eq in Hc10. subst c. discriminate Hc.
Qed.

Lemma all_digits_app a b :
  PyStr.all_digits (a ++ b) = PyStr.all_digits a && PyStr.all_digits b.
Proof.
  induction a as [|c r IH]; [reflexivity|].
  change (String c r ++ b) with (String c (r ++ b)). simpl.
  rewrite IH, andb_assoc. reflexivity.
Qed.

Lemma no_newline_app a b : no_newline (a ++ b) = no_newline a && no_newline b.
Proof.
  induction a as [|c r IH]; [reflexivity|].
  change (String c r ++ b) with (String c (r ++ b)). simpl.
  rewrite IH, andb_assoc. reflexivity.
Qed.

Lemma all_digits_str_of_nat n : PyStr.all_digits (PyStr.str_of_nat n) = true.
Proof. apply all_digits_decimal_digits. reflexivity. Qed.

Lemma all_digits_zeros k : PyStr.all_digits (PyStr.str_mul "0" k) = true.
Proof. induction k as [|k IH]; [reflexivity|]. simpl. exact IH. Qed.

Lemma all_digits_zero_pad w n : PyStr.all_digits (PyStr.zero_pad w n) = true.
Proof.
  unfold PyStr.zero_pad. rewrite all_digits_app, all_digits_zeros.
  apply all_digits_str_of_nat.
Qed.

Lemma append_assoc (a b c : string) : a ++ b ++ c = (a ++ b) ++ c.
Proof.
  induction a as [|x r IH]; [reflexivity|].
  change (String x r ++ b ++ c) with (String x (r ++ b ++ c)).
  rewrite IH. reflexivity.
Qed.

Lemma newline_app s :
  Pipeline.newline ++ s = String (ascii_of_nat 10) s.
Proof. reflexivity. Qed.

Lemma split_lines_nonempty s : split_lines s <> [].
Proof.
  destruct s as [|c r]; [discriminate|]. cbn [split_lines].
  destruct (Ascii.eqb c (ascii_of_nat 10)); [discriminate|].
  destruct (split_lines r); discriminate.
Qed.

(** Splitting distributes over a newline. *)
Lemma split_lines_newline a b :
  split_lines (a ++ String (ascii_of_nat 10) b)
  = (split_lines a ++ split_lines b)%list.
Proof.
  induction a as [|c r IH].
  - change (EmptyString ++ String (ascii_of_nat 10) b)
      with (String (ascii_of_nat 10) b).
    reflexivity.
  - change (String c r ++ String (ascii_of_nat 10) b)
      with (String c (r ++ String (ascii_of_nat 10) b)).
    cbn [split_lines]. rewrite IH.
    destruct (Ascii.eqb c (ascii_of_nat 10)); [reflexivity|].
    pose proof (split_lines_nonempty r) as Hne.
    destruct (split_lines r) as [|l ls]; [congruence|]. reflexivity.
Qed.

Lemma split_lines_single a : no_newline a = true -> split_lines a = [a].
Proof.
  induction a as [|c r IH]; [reflexivity|]. cbn [no_newline split_lines].
  intros H. apply andb_prop in H as [Hc Hr].
  destruct (Ascii.eqb c (ascii_of_nat 10)); [discriminate Hc|].
  rewrite (IH Hr). reflexivity.
Qed.

Lemma split_lines_line a b :
  no_newline a = true ->
  split_lines (a ++ Pipeline.newline ++ b) = a :: split_lines b.
Proof.
  intros Ha. rewrite newline_app, split_lines_newline.
  rewrite (split_lines_single a Ha). reflexivity.
Qed.

Lemma file_lines_final_newline l s :
  split_lines s = (l ++ [EmptyString])%list -> file_lines s = l.
Proof.
  intros H. unfold file_lines. rewrite H, rev_app_distr. cbn [rev app].
  apply rev_involutive.
Qed.

Lemma iso_fields d :
  strftime "%Y-%m-%d %H:%M:%S" d
  = PyStr.zero_pad 4 (year d) ++ String "-" (PyStr.zero_pad 2 (month d)
    ++ String "-" (PyStr.zero_pad 2 (day d)
    ++ String " " (PyStr.zero_pad 2 (hour d)
    ++ String ":" (PyStr.zero_pad 2 (minute d)
    ++ String ":" (PyStr.zero_pad 2 (second d) ++ EmptyString))))).
Proof. reflexivity. Qed.

Lemma no_newline_zero_pad w n : no_newline (PyStr.zero_pad w n) = true.
Proof. apply all_digits_no_newline, all_digits_zero_pad. Qed.

Lemma no_newline_iso d : no_newline (strftime "%Y-%m-%d %H:%M:%S" d) = true.
Proof.
  rewrite iso_fields.
  repeat (rewrite no_newline_app, no_newline_zero_pad; cbn [andb no_newline]);
    reflexivity.
Qed.

Lemma split_lines_blank b :
  split_lines (String (ascii_of_nat 10) b) = EmptyString :: split_lines b.
Proof. reflexivity. Qed.

(** The text of a report, line by line. *)
Lemma report_text_lines text d :
  file_lines (Pipeline.report_text text d) = report_layout_code text d.
Proof.
  apply file_lines_final_newline. unfold Pipeline.report_text.
  rewrite (append_assoc "Generated at: ").
  rewrite !newline_app. unfold Pipeline.newline.
  repeat (rewrite split_lines_newline || rewrite split_lines_blank).
  rewrite (split_lines_single (Pipeline.rule 80)) by reflexivity.
  rewrite (split_lines_single
             "INDUSTRIAL PROCESS MONITORING - ANOMALY ANALYSIS REPORT")
    by reflexivity.
  rewrite (split_lines_single ("Generated at: " ++ _))
    by (rewrite no_newline_app, no_newline_iso; reflexivity).
  rewrite (split_lines_single
             "Source plot: images/culprit_signals_analysis.png")
    by reflexivity.
  rewrite (split_lines_single "End of Report") by reflexivity.
  unfold report_layout_code. cbn [split_lines app].
  rewrite <- !app_assoc. reflexivity.
Qed.

(** The guarded write at the end of [save_analysis_report]: when it hands
    back a path, the file at that path holds the report text stamped with
    the clock reading taken during the write. *)
Lemma report_write_block E text path location_msg w p w' :
  try_except
    (write_file E path (let! d := now E in ret (Pipeline.report_text text d)) >>
     print ("📄 Analysis report saved to: " ++ location_msg) >>
     ret (Some path))
    is_Exception
    (fun e => print ("❌ Error saving report: " ++ exn_str e) >> ret None) w
  = (Ok (Some p), w') ->
  p = path /\
  files w' !! path = Some (Pipeline.report_text text (clock E (reads w))).
Proof.
  unfold try_except, bind, write_file, now, ret, print.
  destruct (write_error E w path) as [msg|]; cbn [is_Exception].
  - intros H. discriminate H.
  - intros H. injection H as <- <-. split; [reflexivity|].
    cbn [files emit set_files tick]. apply lookup_insert_eq.
Qed.

End ReportFacts.

(** *** What a successful archive-then-write leaves *)

Module WriteFacts.

Import Datetime Py Props Facts.

(** The files a successful archive-then-write of the report leaves. *)
Lemma files_after_save_report E r w :
  moves_succeed E -> writes_succeed E -> Pipeline.truthy r = true ->
  exists w',
    Pipeline.save_analysis_report E r true w
    = (Ok (Some "analysis/analysis_report.txt"), w') /\
    files w' =
    <["analysis/analysis_report.txt" :=
        Pipeline.report_text (Pipeline.text_of r) (clock E (S (reads w)))]>
      (rotated "analysis/analysis_report.txt"
         ("analysis/archive/analysis_report_" ++ stamp (clock E (reads w))
          ++ ".txt") (files w)).
Proof.
  intros Hm Hw Hr. unfold Pipeline.save_analysis_report. rewrite Hr.
  cbn [negb]. unfold bind at 1 2.
  change (Pipeline.archive_existing_analysis E w) with (rotation E Report w).
  rewrite (rotation_ok E Report w Hm).
  unfold bind at 1, makedirs at 1, ret at 1.
  unfold try_except, bind, write_file. rewrite Hw.
  unfold now, ret, print. eexists. split; [reflexivity|].
  cbn [files emit set_files tick add_dirs reads].
  rewrite reads_rotate_all, reads_prepared, files_rotate_all_report, files_prepared.
  reflexivity.
Qed.

Lemma files_after_generate E w :
  moves_succeed E -> writes_succeed E ->
  let w1 := rotate_all Data (stamp (clock E (reads w))) (prepared Data w) in
  fst (SynthData.generate_and_save_data E w) = Ok tt /\
  files (snd (SynthData.generate_and_save_data E w)) =
    <["data/sensors.csv" := snd (sample E w1)]>
      (<["data/events.csv" := fst (sample E w1)]>
         (rotated "data/sensors.csv"
            ("data/archive/sensors_" ++ stamp (clock E (reads w)) ++ ".csv")
            (rotated "data/events.csv"
               ("data/archive/events_" ++ stamp (clock E (reads w)) ++ ".csv")
               (files w)))).
Proof.
  intros Hm Hw w1. unfold SynthData.generate_and_save_data.
  unfold bind.
  change (SynthData.archive_existing_files E w) with (rotation E Data w).
  rewrite (rotation_ok E Data w Hm). fold w1.
  unfold sample_tables.
  destruct (sample E w1) as [ev sn].
  unfold write_file, ret. rewrite Hw. cbv beta iota. rewrite Hw.
  unfold now, print.
  split; [reflexivity|].
  cbn [files emit set_files tick snd fst]. unfold w1.
  rewrite files_rotate_all_data, files_prepared. reflexivity.
Qed.

Lemma read_csv_ok E path text w :
  files w !! path = Some text -> csv_parses E text ->
  read_csv E path w = (Ok text, w).
Proof.
  intros Hf [Hlen Hparse]. unfold read_csv. rewrite Hf, Hlen, Hparse.
  reflexivity.
Qed.

Lemma read_csv_missing E path w :
  files w !! path = None ->
  read_csv E path w
  = (Raise (FileNotFoundError
              ("[Errno 2] No such file or directory: '" ++ path ++ "'")), w).
Proof. intros Hf. unfold read_csv. rewrite Hf. reflexivity. Qed.

Lemma load_data_ok E w ev sn :
  files w !! "data/events.csv" = Some ev ->
  files w !! "data/sensors.csv" = Some sn ->
  tables_load E ev sn ->
  PlotData.load_data E w = (Ok (Some ev, Some sn), w).
Proof.
  intros Hev Hsn (Pev & Psn & Tev & Tsn).
  unfold PlotData.load_data, try_except, bind.
  rewrite (read_csv_ok E _ ev w Hev Pev), (read_csv_ok E _ sn w Hsn Psn).
  unfold to_datetime. rewrite Tev, Tsn. reflexivity.
Qed.

Lemma load_data_events_missing E w :
  files w !! "data/events.csv" = None ->
  PlotData.load_data E w
  = (Ok (None, None),
     emit (Printed ("Error loading data: [Errno 2] No such file or directory: '"
                    ++ "data/events.csv" ++ "'")) w).
Proof.
  intros Hev. unfold PlotData.load_data, try_except, bind.
  rewrite (read_csv_missing E _ w Hev). reflexivity.
Qed.

Lemma load_data_sensors_missing E w ev :
  files w !! "data/events.csv" = Some ev -> csv_parses E ev ->
  files w !! "data/sensors.csv" = None ->
  PlotData.load_data E w
  = (Ok (None, None),
     emit (Printed ("Error loading data: [Errno 2] No such file or directory: '"
                    ++ "data/sensors.csv" ++ "'")) w).
Proof.
  intros Hev Pev Hsn. unfold PlotData.load_data, try_except, bind.
  rewrite (read_csv_ok E _ ev w Hev Pev), (read_csv_missing E _ w Hsn).
  reflexivity.
Qed.

(** An events table that is there but cannot be read makes [load_data]
    raise a ValueError from the world it found. *)
Lemma load_data_events_unreadable E w ev :
  files w !! "data/events.csv" = Some ev -> ~ csv_parses E ev ->
  exists msg, PlotData.load_data E w = (Raise (ValueError msg), w).
Proof.
  intros Hev Hbad. unfold PlotData.load_data, try_except, bind, read_csv.
  rewrite Hev. destruct (String.length ev =? 0)%nat eqn:Hlen;
    [eexists; reflexivity|].
  destruct (parse_error E ev) as [msg|] eqn:Hparse; [eexists; reflexivity|].
  exfalso. apply Hbad. split; assumption.
Qed.

Lemma csv_parses_dec E text : csv_parses E text \/ ~ csv_parses E text.
Proof.
  unfold csv_parses. destruct (String.length text =? 0)%nat;
    [right; intros [H _]; discriminate H|].
  destruct (parse_error E text); [right; intros [_ H]; discriminate H|].
  left. split; reflexivity.
Qed.

Lemma files_after_dashboard E w ev sn :
  moves_succeed E -> writes_succeed E ->
  files w !! "data/events.csv" = Some ev ->
  files w !! "data/sensors.csv" = Some sn ->
  tables_load E ev sn ->
  render_error E ev sn = None ->
  exists w',
    PlotData.create_dashboard E w = (Ok tt, w') /\
    files w' =
    <["images/culprit_signals_analysis.png" := render E ev sn]>
      (rotated "images/culprit_signals_analysis.png"
         ("images/archive/culprit_signals_analysis_"
          ++ stamp (clock E (reads w)) ++ ".png") (files w)).
Proof.
  intros Hm Hw Hev Hsn Hload Hrender.
  unfold PlotData.create_dashboard.
  unfold bind at 1. rewrite (load_data_ok E w ev sn Hev Hsn Hload).
  unfold bind at 1 2, print at 1.
  change (PlotData.archive_existing_plot E) with (rotation E Plot).
  rewrite (rotation_ok E Plot _ Hm).
  unfold bind at 1 2, print at 1, draw_figure. rewrite Hrender.
  unfold bind, print, write_file, ret. rewrite Hw. unfold now.
  eexists. split; [reflexivity|].
  cbn [files emit set_files tick snd fst reads].
  rewrite files_rotate_all_plot, files_prepared. reflexivity.
Qed.

End WriteFacts.

(** *** The effects a computation logs *)

Module Effects.

Import Datetime Py Props Facts.

Section Emits.

Variable E : env.
Variable Q : event -> bool.
Hypothesis Q_print : forall line, Q (Printed line) = true.

Lemma emits_same_log {A} (m : M A) :
  (forall w, log (snd (m w)) = log w) -> emits Q m.
Proof.
  intros H w. exists []. rewrite H, app_nil_r. split; reflexivity.
Qed.


Lemma emits_ret {A} (a : A) : emits Q (ret a).
Proof. apply emits_same_log. reflexivity. Qed.


Lemma emits_bind {A B} (m : M A) (k : A -> M B) :
  emits Q m -> (forall a, emits Q (k a)) -> emits Q (bind m k).
Proof.
  intros Hm Hk w. unfold bind. destruct (Hm w) as (evs & Hlog & Hall).
  destruct (m w) as [[a|e] w1]; simpl in Hlog.
  - destruct (Hk a w1) as (evs2 & Hlog2 & Hall2).
    exists (evs ++ evs2)%list. rewrite Hlog2, Hlog, app_assoc.
    split; [reflexivity|]. rewrite forallb_app, Hall, Hall2. reflexivity.
  - exists evs. split; assumption.
Qed.



Lemma emits_event {A} (m : M A) ev :
  Q ev = true -> (forall w, log (snd (m w)) = (log w ++ [ev])%list) ->
  emits Q m.
Proof.
  intros HQ H w. exists [ev]. split; [apply H|]. simpl. rewrite HQ. reflexivity.
Qed.

Lemma emits_print line : emits Q (print line).
Proof. apply emits_event with (Printed line); [apply Q_print|reflexivity]. Qed.

Lemma emits_sleep secs : Q (Slept secs) = true -> emits Q (sleep secs).
Proof. intros H. apply emits_event with (Slept secs); [exact H|reflexivity]. Qed.

Lemma emits_now : emits Q (now E).
Proof. apply emits_same_log. reflexivity. Qed.

Lemma emits_makedirs p : emits Q (makedirs p).
Proof. apply emits_same_log. reflexivity. Qed.

Lemma emits_path_exists p : emits Q (path_exists p).
Proof. apply emits_same_log. reflexivity. Qed.

Lemma emits_sample_tables : emits Q (sample_tables E).
Proof. apply emits_same_log. reflexivity. Qed.

Lemma emits_consult_vlm : emits Q (consult_vlm E).
Proof. apply emits_same_log. reflexivity. Qed.

Lemma emits_read_csv p : emits Q (read_csv E p).
Proof.
  apply emits_same_log. intros w. unfold read_csv.
  destruct (files w !! p) as [text|]; [|reflexivity].
  destruct (String.length text =? 0)%nat; [reflexivity|].
  destruct (parse_error E text); reflexivity.
Qed.

Lemma emits_to_datetime df : emits Q (to_datetime E df).
Proof.
  apply emits_same_log. intros w. unfold to_datetime.
  destruct (time_error E df); reflexivity.
Qed.

Lemma emits_draw_figure ev sn : emits Q (draw_figure E ev sn).
Proof.
  apply emits_same_log. intros w. unfold draw_figure.
  destruct (render_error E ev sn); reflexivity.
Qed.

Lemma emits_shutil_move src dst :
  Q (Moved src dst) = true -> emits Q (shutil_move E src dst).
Proof.
  intros HQ w. unfold shutil_move.
  destruct (files w !! src) as [c|];
    [|exists []; rewrite app_nil_r; split; reflexivity].
  destruct (move_error E w src dst);
    [exists []; rewrite app_nil_r; split; reflexivity|].
  exists [Moved src dst]. split; [reflexivity|]. simpl. rewrite HQ. reflexivity.
Qed.

Lemma emits_write_file path body :
  Q (Wrote path) = true -> emits Q body -> emits Q (write_file E path body).
Proof.
  intros HQ Hb w. unfold write_file.
  destruct (write_error E w path);
    [exists []; rewrite app_nil_r; split; reflexivity|].
  destruct (Hb w) as (evs & Hlog & Hall).
  destruct (body w) as [[text|e] w1]; simpl in Hlog.
  - exists (evs ++ [Wrote path])%list. cbn [snd log emit set_files].
    rewrite Hlog, app_assoc. split; [reflexivity|].
    rewrite forallb_app, Hall. simpl. rewrite HQ. reflexivity.
  - exists evs. split; assumption.
Qed.

Lemma emits_archive_if_exists dir adir ts f :
  Q (Moved (PyStr.path_join dir f)
       (PyStr.path_join adir (archived_name f ts))) = true ->
  emits Q (archive_if_exists E dir adir ts f).
Proof.
  intros HQ. unfold archive_if_exists.
  apply emits_bind; [apply emits_path_exists|]. intros [|]; [|apply emits_ret].
  apply emits_bind; [apply emits_shutil_move; exact HQ|].
  intros _. apply emits_print.
Qed.

End Emits.

Section Cycle.

Variable E : env.
Variable naps : nat -> bool.

Let Q := cycle_effect naps.

Lemma cycle_effect_print line : Q (Printed line) = true.
Proof. reflexivity. Qed.

Ltac step := first
  [ apply emits_print; exact cycle_effect_print
  | apply emits_ret | apply emits_now | apply emits_makedirs
  | apply emits_sample_tables | apply emits_consult_vlm
  | apply emits_read_csv | apply emits_to_datetime | apply emits_draw_figure
  | apply emits_write_file; [reflexivity|]
  | apply emits_archive_if_exists; [exact cycle_effect_print | reflexivity] ].

Ltac steps := repeat first [ step | apply emits_bind; [|intros ?] ].

Lemma emits_generate_and_save_data :
  emits Q (SynthData.generate_and_save_data E).
Proof.
  unfold SynthData.generate_and_save_data, SynthData.archive_existing_files.
  apply emits_bind.
  - apply emits_bind; [step|]. intros _.
    apply emits_bind; [step|]. intros d.
    generalize (strftime "%Y%m%d_%H%M%S" d). intros ts.
    unfold for_each. steps.
  - intros _. apply emits_bind; [step|]. intros [ev sn]. steps.
Qed.












Lemma emits_generation_loop cycles :
  naps 30 = true -> emits Q (SynthData.generation_loop E cycles).
Proof.
  intros Hnap. induction cycles as [|remaining IH];
    cbn [SynthData.generation_loop]; [step|].
  apply emits_bind; [step|intros ?].
  apply emits_bind; [apply emits_generate_and_save_data|intros ?].
  apply emits_bind; [apply emits_sleep; exact Hnap|]. intros _. apply IH.
Qed.


End Cycle.

End Effects.


(** *** Each step keeps to its folder *)

Module FolderFacts.

Import Datetime Py Props Facts Frame.

Section Folders.

Variable E : env.
Variable P : string -> bool.




End Folders.



End FolderFacts.

(** *** The data generation loop *)

Module LoopFacts.

Import Datetime Py Props Facts Frame WriteFacts Effects FolderFacts.





(** An exception of the data step ends the loop where it is raised. *)
Lemma generation_loop_raise E n w e w1 :
  SynthData.generate_and_save_data E (tick w) = (Raise e, w1) ->
  SynthData.generation_loop E (S n) w = (Raise e, w1).
Proof.
  intros H. cbn [SynthData.generation_loop]. unfold bind, now.
  rewrite H. reflexivity.
Qed.




End LoopFacts.

(** *** The status list of the front end *)

Module StatusFacts.

Import Datetime Props.






End StatusFacts.

(** ** The properties of the specification *)

Import Datetime Py Props Facts Frame ReportFacts WriteFacts.

(** C1 (as the code has it). When the archive path that the rotation
    computes is not taken yet, archive-then-write leaves the new content at
    the current path and exactly one new archive entry of that logical
    name, which holds the old content; the older entries are as they
    were. *)
Theorem archive_then_write_fresh (E : env) (w : world) :
  moves_succeed E ->
  writes_succeed E ->
  let ts := strftime "%Y%m%d_%H%M%S" (clock E (reads w)) in
  (forall r C,
     Pipeline.truthy r = true ->
     files w !! "analysis/analysis_report.txt" = Some C ->
     files w !! ("analysis/archive/analysis_report_" ++ ts ++ ".txt") = None ->
     exists w',
       Pipeline.save_analysis_report E r true w
       = (Ok (Some "analysis/analysis_report.txt"), w') /\
       archive_then_write_post "analysis/analysis_report.txt"
         "analysis/archive/analysis_report_" C
         (Pipeline.report_text (Pipeline.text_of r) (clock E (S (reads w))))
         w w')
  /\
  (forall Ce Cs,
     files w !! "data/events.csv" = Some Ce ->
     files w !! "data/sensors.csv" = Some Cs ->
     files w !! ("data/archive/events_" ++ ts ++ ".csv") = None ->
     files w !! ("data/archive/sensors_" ++ ts ++ ".csv") = None ->
     exists w' w1,
       SynthData.generate_and_save_data E w = (Ok tt, w') /\
       archive_then_write_post "data/events.csv" "data/archive/events_"
         Ce (fst (sample E w1)) w w' /\
       archive_then_write_post "data/sensors.csv" "data/archive/sensors_"
         Cs (snd (sample E w1)) w w')
  /\
  (forall ev sn C,
     files w !! "data/events.csv" = Some ev ->
     files w !! "data/sensors.csv" = Some sn ->
     tables_load E ev sn ->
     render_error E ev sn = None ->
     files w !! "images/culprit_signals_analysis.png" = Some C ->
     files w !! ("images/archive/culprit_signals_analysis_" ++ ts ++ ".png")
     = None ->
     exists w',
       PlotData.create_dashboard E w = (Ok tt, w') /\
       archive_then_write_post "images/culprit_signals_analysis.png"
         "images/archive/culprit_signals_analysis_" C (render E ev sn) w w').
Proof.
  intros Hm Hw ts. fold (stamp (clock E (reads w))) in ts.
  split; [|split].
  - intros r C Hr Hcur Hfresh.
    destruct (files_after_save_report E r w Hm Hw Hr) as (w' & Hrun & Hfiles).
    exists w'. split; [exact Hrun|].
    fold ts in Hfiles. clearbody ts.
    rewrite (rotated_present _ _ _ _ Hcur) in Hfiles.
    unfold archive_then_write_post. rewrite Hfiles.
    split; [apply lookup_insert_eq|].
    exists ("analysis/archive/analysis_report_" ++ ts ++ ".txt").
    split; [reflexivity|]. split; [exact Hfresh|].
    split.
    + rewrite lookup_insert_ne by paths_differ. apply lookup_insert_eq.
    + intros q Hq Hne.
      rewrite lookup_insert_ne by other_path Hq.
      rewrite lookup_insert_ne by congruence.
      apply lookup_delete_ne. other_path Hq.
  - intros Ce Cs Hev Hsn Hfe Hfs.
    destruct (files_after_generate E w Hm Hw) as [Hrun Hfiles].
    destruct (SynthData.generate_and_save_data E w) as [res w'].
    simpl in Hrun, Hfiles. subst res.
    exists w', (rotate_all Data (stamp (clock E (reads w))) (prepared Data w)).
    split; [reflexivity|].
    destruct (sample E (rotate_all Data (stamp (clock E (reads w)))
                          (prepared Data w))) as [Ce' Cs'].
    cbn [fst snd] in *. fold ts in Hfiles. clearbody ts.
    assert (Hsn1 : rotated "data/events.csv"
                     ("data/archive/events_" ++ ts ++ ".csv") (files w)
                   !! "data/sensors.csv" = Some Cs).
    { rewrite lookup_rotated_other by paths_differ. exact Hsn. }
    rewrite (rotated_present _ _ _ _ Hsn1) in Hfiles.
    rewrite (rotated_present _ _ _ _ Hev) in Hfiles.
    unfold archive_then_write_post. rewrite Hfiles. split.
    + split.
      { rewrite lookup_insert_ne by paths_differ. apply lookup_insert_eq. }
      exists ("data/archive/events_" ++ ts ++ ".csv").
      split; [reflexivity|]. split; [exact Hfe|]. split.
      * rewrite !lookup_insert_ne by paths_differ.
        rewrite lookup_delete_ne by paths_differ. apply lookup_insert_eq.
      * intros q Hq Hne.
        rewrite lookup_insert_ne by other_path Hq.
        rewrite lookup_insert_ne by other_path Hq.
        rewrite lookup_insert_ne by other_path Hq.
        rewrite lookup_delete_ne by other_path Hq.
        rewrite lookup_insert_ne by congruence.
        apply lookup_delete_ne. other_path Hq.
    + split; [apply lookup_insert_eq|].
      exists ("data/archive/sensors_" ++ ts ++ ".csv").
      split; [reflexivity|]. split; [exact Hfs|]. split.
      * rewrite !lookup_insert_ne by paths_differ. apply lookup_insert_eq.
      * intros q Hq Hne.
        rewrite lookup_insert_ne by other_path Hq.
        rewrite lookup_insert_ne by other_path Hq.
        rewrite lookup_insert_ne by congruence.
        rewrite lookup_delete_ne by other_path Hq.
        rewrite lookup_insert_ne by other_path Hq.
        apply lookup_delete_ne. other_path Hq.
  - intros ev sn C Hev Hsn Hload Hrender Hcur Hfresh.
    destruct (files_after_dashboard E w ev sn Hm Hw Hev Hsn Hload Hrender)
      as (w' & Hrun & Hfiles).
    exists w'. split; [exact Hrun|].
    fold ts in Hfiles. clearbody ts.
    rewrite (rotated_present _ _ _ _ Hcur) in Hfiles.
    unfold archive_then_write_post. rewrite Hfiles.
    split; [apply lookup_insert_eq|].
    exists ("images/archive/culprit_signals_analysis_" ++ ts ++ ".png").
    split; [reflexivity|]. split; [exact Hfresh|].
    split.
    + rewrite lookup_insert_ne by paths_differ. apply lookup_insert_eq.
    + intros q Hq Hne.
      rewrite lookup_insert_ne by other_path Hq.
      rewrite lookup_insert_ne by congruence.
      apply lookup_delete_ne. other_path Hq.
Qed.

Lemma archive_then_write_fresh_witness :
  (exists w',
     Pipeline.save_analysis_report calm (Some (PlainStr "v2")) true used_world
     = (Ok (Some "analysis/analysis_report.txt"), w') /\
     archive_then_write_post "analysis/analysis_report.txt"
       "analysis/archive/analysis_report_" "v1"
       (Pipeline.report_text (Pipeline.text_of (Some (PlainStr "v2")))
          (clock calm (S (reads used_world))))
       used_world w')
  /\
  (exists w' w1,
     SynthData.generate_and_save_data calm used_world = (Ok tt, w') /\
     archive_then_write_post "data/events.csv" "data/archive/events_"
       "ev1" (fst (sample calm w1)) used_world w' /\
     archive_then_write_post "data/sensors.csv" "data/archive/sensors_"
       "sn1" (snd (sample calm w1)) used_world w').
Proof.
  destruct (archive_then_write_fresh calm used_world) as (HR & HD & _).
  - intros w src dst. reflexivity.
  - intros w p. reflexivity.
  - split.
    + apply (HR (Some (PlainStr "v2")) "v1"); vm_compute; reflexivity.
    + apply (HD "ev1" "sn1"); vm_compute; reflexivity.
Defined.

(** C1 as the specification words it fails when an archive entry of the
    computed name is already there (a second rotation within the same
    second): the move replaces that entry, so no new entry appears and the
    content archived before is lost. *)
Lemma archive_then_write_collision :
  files collided_world !! "analysis/analysis_report.txt" = Some "v1" /\
  files collided_world
    !! "analysis/archive/analysis_report_20250913_120000.txt" = Some "v0" /\
  exists w',
    Pipeline.save_analysis_report calm (Some (PlainStr "v2")) true
      collided_world
    = (Ok (Some "analysis/analysis_report.txt"), w') /\
    files w' !! "analysis/archive/analysis_report_20250913_120000.txt"
    = Some "v1" /\
    size (files w') = size (files collided_world) /\
    ~ archive_then_write_post "analysis/analysis_report.txt"
        "analysis/archive/analysis_report_" "v1"
        (Pipeline.report_text "v2" noon) collided_world w'.
Proof.
  split; [vm_compute; reflexivity|].
  split; [vm_compute; reflexivity|].
  exists (snd (Pipeline.save_analysis_report calm (Some (PlainStr "v2")) true
                 collided_world)).
  split; [vm_compute; reflexivity|].
  split; [vm_compute; reflexivity|].
  split; [vm_compute; reflexivity|].
  intros (_ & p & _ & Hnone & Hsome & _).
  apply elem_of_map_to_list in Hsome.
  assert (Hlist :
    map_to_list
      (files (snd (Pipeline.save_analysis_report calm (Some (PlainStr "v2"))
                     true collided_world)))
    = [("images/culprit_signals_analysis.png", "png1");
       ("analysis/analysis_report.txt", Pipeline.report_text "v2" noon);
       ("analysis/archive/analysis_report_20250913_120000.txt", "v1");
       ("data/sensors.csv", "sn1");
       ("data/events.csv", "ev1")]).
  { vm_compute. reflexivity. }
  rewrite Hlist in Hsome. clear Hlist.
  repeat (apply elem_of_cons in Hsome as [Hsome|Hsome];
          [try discriminate Hsome|]).
  - injection Hsome as ->. vm_compute in Hnone. discriminate Hnone.
  - inversion Hsome.
Qed.

(** C2. When the move of the rotation raises, archive-then-write raises
    the same OSError from the world the rotation left: nothing is written
    and no write follows.  For the report the old file is still in place;
    for the data tables each old file is either still in place or fully
    moved to its archive path. *)
Theorem failed_rotation_blocks_write (E : env) (w : world) :
  (forall e w1,
     SynthData.archive_existing_files E w = (Raise e, w1) ->
     SynthData.generate_and_save_data E w = (Raise e, w1) /\
     (exists msg, e = OSError msg) /\
     (exists evs, logged_since w w1 evs /\
                  forallb (fun ev => negb (is_write ev)) evs = true) /\
     forall f C,
       In f (current_names Data) ->
       files w !! cur_path Data f = Some C ->
       files w1 !! cur_path Data f = Some C \/
       (files w1 !! cur_path Data f = None /\
        files w1 !! arch_path Data
                      (strftime "%Y%m%d_%H%M%S" (clock E (reads w))) f
        = Some C))
  /\
  (forall e w1 r,
     Pipeline.truthy r = true ->
     Pipeline.archive_existing_analysis E w = (Raise e, w1) ->
     Pipeline.save_analysis_report E r true w = (Raise e, w1) /\
     (exists msg, e = OSError msg) /\
     files w1 = files w /\
     log w1 = log w).
Proof.
  split.
  - intros e w1 H.
    split.
    { unfold SynthData.generate_and_save_data, bind. rewrite H. reflexivity. }
    change (SynthData.archive_existing_files E w) with (rotation E Data w) in H.
    rewrite rotation_unfold in H.
    unfold for_each, current_names, current_dir, archive_dir, bind in H.
    fold (stamp (clock E (reads w))).
    revert H. generalize (stamp (clock E (reads w))). intros ts H.
    destruct (archive_if_exists_cases E "data" "data/archive" ts "events.csv"
                (prepared Data w)) as [(wa & Heq & Hwa) | (msg & c & Heq & Hc)];
      rewrite Heq in H.
    + destruct (archive_if_exists_cases E "data" "data/archive" ts "sensors.csv" wa)
        as [(wb & Heq2 & _) | (msg & c & Heq2 & Hc2)]; rewrite Heq2 in H.
      * discriminate H.
      * injection H as <- <-. split; [eauto|].
        subst wa.
        change (PyStr.path_join "data" "events.csv") with "data/events.csv" in *.
        change (PyStr.path_join "data/archive" (archived_name "events.csv" ts))
          with ("data/archive/events_" ++ ts ++ ".csv") in *.
        split.
        { unfold after_rotation, logged_since. rewrite files_prepared.
          destruct (files w !! "data/events.csv") as [c0|].
          - eexists. cbn [log emit set_files prepared tick add_dirs].
            rewrite <- !app_assoc. split; reflexivity.
          - exists []. rewrite app_nil_r. split; reflexivity. }
        intros f C Hin Hcur. rewrite files_after_rotation, files_prepared.
        simpl in Hin. destruct Hin as [<-|[<-|[]]].
        -- right. change (cur_path Data "events.csv") with "data/events.csv" in *.
           change (arch_path Data ts "events.csv")
             with ("data/archive/events_" ++ ts ++ ".csv").
           split; [apply lookup_rotated_cur with C; [exact Hcur|paths_differ]
                  | apply lookup_rotated_arch; exact Hcur].
        -- left. change (cur_path Data "sensors.csv") with "data/sensors.csv" in *.
           rewrite lookup_rotated_other by paths_differ. exact Hcur.
    + injection H as <- <-. split; [eauto|]. split.
      { exists []. unfold logged_since. rewrite app_nil_r. split; reflexivity. }
      intros f C _ Hcur. left. rewrite files_prepared. exact Hcur.
  - intros e w1 r Hr H.
    split.
    { unfold Pipeline.save_analysis_report. rewrite Hr. unfold negb, bind.
      rewrite H. reflexivity. }
    rewrite archive_existing_analysis_unfold in H.
    destruct (archive_if_exists_cases E "analysis" "analysis/archive"
                (stamp (clock E (reads w))) "analysis_report.txt"
                (tick (add_dirs (made_dirs "analysis/archive")
                         (add_dirs (made_dirs "analysis") w))))
      as [(wa & Heq & Hwa) | (msg & c & Heq & Hc)]; rewrite Heq in H.
    + discriminate H.
    + injection H as <- <-. split; [eauto|]. split; reflexivity.
Qed.

Lemma failed_rotation_blocks_write_witness :
  SynthData.generate_and_save_data no_moves used_world
  = (Raise (OSError "Permission denied"), prepared Data used_world) /\
  Pipeline.save_analysis_report no_moves (Some (PlainStr "ok")) true used_world
  = (Raise (OSError "Permission denied"), prepared Report used_world).
Proof.
  destruct (failed_rotation_blocks_write no_moves used_world) as [HD HR].
  split.
  - apply HD. vm_compute. reflexivity.
  - apply HR; vm_compute; reflexivity.
Defined.

(** C3. A rotation that finds no file at the current location is a no-op:
    it returns normally, the regular files and the log of effects (in
    particular: no move, no archive entry) are as before, and the only
    change to the directories is that the archive directory and its
    ancestors are made sure of, which changes nothing when they exist. *)
Theorem rotation_noop_on_absent_source (E : env) (d : domain) (w : world) :
  (forall f, In f (current_names d) -> files w !! cur_path d f = None) ->
  exists w',
    rotation E d w = (Ok tt, w') /\
    files w' = files w /\
    log w' = log w /\
    dirs w' = made_dirs (archive_dir d) ∪ dirs w /\
    (made_dirs (archive_dir d) ⊆ dirs w -> dirs w' = dirs w).
Proof.
  intros Habs.
  assert (Hrot : rotation E d w = (Ok tt, prepared d w)).
  { rewrite rotation_unfold.
    destruct d; unfold for_each, current_names, bind;
      rewrite !archive_if_exists_absent; try reflexivity;
      try (apply (Habs _); simpl; tauto). }
  exists (prepared d w). split; [exact Hrot|].
  split; [destruct d; reflexivity|].
  split; [destruct d; reflexivity|].
  assert (Hd : dirs (prepared d w) = made_dirs (archive_dir d) ∪ dirs w).
  { destruct d; try reflexivity. simpl.
    destruct made_dirs_table as (_ & _ & -> & ->).
    apply set_eq. intros x. rewrite !elem_of_union, !elem_of_singleton. tauto. }
  split; [exact Hd|]. intros Hsub. rewrite Hd.
  apply set_eq. intros x. rewrite elem_of_union. split; [|tauto].
  intros [Hx|Hx]; [apply Hsub; exact Hx | exact Hx].
Qed.

Lemma rotation_noop_on_absent_source_witness :
  exists w',
    rotation calm Data empty_world = (Ok tt, w') /\
    files w' = files empty_world /\
    log w' = log empty_world /\
    dirs w' = made_dirs (archive_dir Data) ∪ dirs empty_world /\
    (made_dirs (archive_dir Data) ⊆ dirs empty_world ->
     dirs w' = dirs empty_world).
Proof.
  apply (rotation_noop_on_absent_source calm Data empty_world).
  intros f Hf. simpl in Hf. destruct Hf as [<-|[<-|[]]]; reflexivity.
Defined.

(** C4. When a rotation finds a file named base.ext at the current
    location, the file ends up in the archive directory under the name
    base_TIMESTAMP.ext, where TIMESTAMP is the reading of the clock taken
    by that rotation, printed as eight digits, an underscore and six
    digits (year month day, hour minute second); the current location is
    then free. *)
Theorem archive_entry_name (E : env) (d : domain) (w : world) (f C : string) :
  moves_succeed E ->
  valid (clock E (reads w)) ->
  In f (current_names d) ->
  files w !! (current_dir d ++ "/" ++ f) = Some C ->
  let ts := strftime "%Y%m%d_%H%M%S" (clock E (reads w)) in
  exists w' base ext,
    f = base ++ "." ++ ext /\
    PyStr.splitext f = (base, "." ++ ext) /\
    rotation E d w = (Ok tt, w') /\
    files w' !! (archive_dir d ++ "/" ++ base ++ "_" ++ ts ++ "." ++ ext)
    = Some C /\
    files w' !! (current_dir d ++ "/" ++ f) = None /\
    timestamp_shape ts.
Proof.
  intros Hm Hvalid Hin Hcur ts.
  assert (Hc : cur_path d f = current_dir d ++ "/" ++ f).
  { destruct d; simpl in Hin; intuition (subst; reflexivity). }
  rewrite <- Hc in *.
  destruct (rotation_archives E d w f C Hm Hin Hcur) as (w' & Hrot & Harch & Hfree & _).
  fold (stamp (clock E (reads w))) in ts.
  assert (Hname : exists base ext,
             f = base ++ "." ++ ext /\ PyStr.splitext f = (base, "." ++ ext) /\
             arch_path d ts f = archive_dir d ++ "/" ++ base ++ "_" ++ ts ++ "." ++ ext).
  { generalize ts. intros t.
    destruct d; simpl in Hin.
    - destruct Hin as [<-|[<-|[]]].
      + exists "events", "csv". repeat split; reflexivity.
      + exists "sensors", "csv". repeat split; reflexivity.
    - destruct Hin as [<-|[]].
      exists "culprit_signals_analysis", "png". repeat split; reflexivity.
    - destruct Hin as [<-|[]].
      exists "analysis_report", "txt". repeat split; reflexivity. }
  destruct Hname as (base & ext & Hf & Hsplit & Hpath).
  exists w', base, ext. rewrite <- Hpath.
  refine (conj Hf (conj Hsplit (conj Hrot (conj Harch (conj Hfree _))))).
  apply stamp_shape. exact Hvalid.
Qed.

Lemma archive_entry_name_witness :
  exists w' base ext,
    "analysis_report.txt" = base ++ "." ++ ext /\
    PyStr.splitext "analysis_report.txt" = (base, "." ++ ext) /\
    rotation calm Report used_world = (Ok tt, w') /\
    files w' !! (archive_dir Report ++ "/" ++ base ++ "_"
                 ++ strftime "%Y%m%d_%H%M%S" (clock calm (reads used_world))
                 ++ "." ++ ext) = Some "v1" /\
    files w' !! (current_dir Report ++ "/" ++ "analysis_report.txt") = None /\
    timestamp_shape (strftime "%Y%m%d_%H%M%S" (clock calm (reads used_world))).
Proof.
  apply (archive_entry_name calm Report used_world "analysis_report.txt" "v1").
  - intros w src dst. reflexivity.
  - unfold valid. simpl. lia.
  - simpl. auto.
  - vm_compute. reflexivity.
Defined.

(** C5 fails on the code.  In the continuous pipeline a failure of the data
    step or of the chart step ends the iteration with [continue], which
    skips the sleep: with a full disk two cycles start back to back and no
    sleep is logged at all.  And a failure while the report in place is
    archived is not caught in the loop: it ends the run in the first cycle
    although three were to start.  A run without failures sleeps between
    its cycles. *)
Theorem continuous_pipeline_skips_sleep :
  cycle_marks
    (log (snd (Pipeline.run_continuous_pipeline disk_full 60 2 used_world)))
  = [Printed (Pipeline.cycle_banner 1); Printed (Pipeline.cycle_banner 2)] /\
  sleep_separated
    (log (snd (Pipeline.run_continuous_pipeline disk_full 60 2 used_world)))
  = false /\
  fst (Pipeline.run_continuous_pipeline report_locked 60 3 used_world)
  = Raise (OSError "Permission denied") /\
  cycle_marks
    (log (snd (Pipeline.run_continuous_pipeline report_locked 60 3 used_world)))
  = [Printed (Pipeline.cycle_banner 1)] /\
  cycle_marks
    (log (snd (Pipeline.run_continuous_pipeline calm 60 2 used_world)))
  = [Printed (Pipeline.cycle_banner 1); Slept 60;
     Printed (Pipeline.cycle_banner 2); Slept 60] /\
  sleep_separated
    (log (snd (Pipeline.run_continuous_pipeline calm 60 2 used_world)))
  = true.
Proof. repeat split; vm_compute; reflexivity. Qed.

(** C6. The archived name is a function of the file name and of the
    timestamp string alone, and the timestamp string only has the
    resolution of a second: two rotations of the same file whose clock
    readings fall in the same second compute the same archived name, and
    both put their file at the same archive path. *)
Theorem same_second_same_archive_name
    (E : env) (d : domain) (w1 w2 : world) (f C1 C2 : string) :
  moves_succeed E ->
  In f (current_names d) ->
  files w1 !! cur_path d f = Some C1 ->
  files w2 !! cur_path d f = Some C2 ->
  same_second (clock E (reads w1)) (clock E (reads w2)) ->
  archived_name f (strftime "%Y%m%d_%H%M%S" (clock E (reads w1)))
  = archived_name f (strftime "%Y%m%d_%H%M%S" (clock E (reads w2))) /\
  exists p w1' w2',
    p = PyStr.path_join (archive_dir d)
          (archived_name f (strftime "%Y%m%d_%H%M%S" (clock E (reads w1)))) /\
    rotation E d w1 = (Ok tt, w1') /\
    rotation E d w2 = (Ok tt, w2') /\
    files w1' !! p = Some C1 /\
    files w2' !! p = Some C2.
Proof.
  intros Hm Hin H1 H2 Hsame.
  pose proof (strftime_same_second "%Y%m%d_%H%M%S" _ _ Hsame) as Hts.
  split; [rewrite Hts; reflexivity|].
  destruct (rotation_archives E d w1 f C1 Hm Hin H1) as (w1' & Hr1 & Ha1 & _).
  destruct (rotation_archives E d w2 f C2 Hm Hin H2) as (w2' & Hr2 & Ha2 & _).
  exists (arch_path d (stamp (clock E (reads w1))) f), w1', w2'.
  split; [reflexivity|].
  split; [exact Hr1|]. split; [exact Hr2|]. split; [exact Ha1|].
  unfold stamp in *. rewrite Hts. exact Ha2.
Qed.

Lemma same_second_same_archive_name_witness :
  archived_name "analysis_report.txt"
    (strftime "%Y%m%d_%H%M%S" (clock hasty (reads used_world)))
  = archived_name "analysis_report.txt"
      (strftime "%Y%m%d_%H%M%S" (clock hasty (reads (tick used_world)))) /\
  exists p w1' w2',
    p = PyStr.path_join (archive_dir Report)
          (archived_name "analysis_report.txt"
             (strftime "%Y%m%d_%H%M%S" (clock hasty (reads used_world)))) /\
    rotation hasty Report used_world = (Ok tt, w1') /\
    rotation hasty Report (tick used_world) = (Ok tt, w2') /\
    files w1' !! p = Some "v1" /\
    files w2' !! p = Some "v1".
Proof.
  apply (same_second_same_archive_name hasty Report used_world
           (tick used_world) "analysis_report.txt" "v1" "v1").
  - intros w src dst. reflexivity.
  - simpl. auto.
  - vm_compute. reflexivity.
  - vm_compute. reflexivity.
  - unfold same_second. simpl. auto 10.
Defined.

(** C7 (as the code has it). Every report that [save_analysis_report] saves
    consists of exactly these lines: a rule of 80 "=", the title line, a
    rule, the line "Generated at: " with the time of the write, the line
    naming the source plot, a rule, an empty line, the raw model output,
    an empty line, a rule, and the line "End of Report". *)
Theorem saved_report_layout
    (E : env) (r : option analysis_result) (to_folder : bool)
    (w w' : world) (path : string) :
  Pipeline.save_analysis_report E r to_folder w = (Ok (Some path), w') ->
  exists n content,
    files w' !! path = Some content /\
    file_lines content =
    ([Pipeline.rule 80;
      "INDUSTRIAL PROCESS MONITORING - ANOMALY ANALYSIS REPORT";
      Pipeline.rule 80;
      ("Generated at: " ++ strftime "%Y-%m-%d %H:%M:%S" (clock E n))%string;
      "Source plot: images/culprit_signals_analysis.png";
      Pipeline.rule 80;
      EmptyString]
     ++ split_lines (Pipeline.text_of r)
     ++ [EmptyString; Pipeline.rule 80; "End of Report"])%list.
Proof.
  intros H. unfold Pipeline.save_analysis_report in H.
  destruct (Pipeline.truthy r); cbn [negb] in H; [|discriminate H].
  unfold bind at 1 in H.
  destruct to_folder.
  - unfold bind at 1 in H.
    destruct (Pipeline.archive_existing_analysis E w) as [[[]|e] w1];
      [|discriminate H].
    unfold bind at 1, makedirs at 1, ret at 1 in H.
    apply report_write_block in H as [<- Hfile].
    eexists. eexists. split; [exact Hfile|]. apply report_text_lines.
  - unfold bind at 1, now at 1, ret at 1 in H.
    apply report_write_block in H as [<- Hfile].
    eexists. eexists. split; [exact Hfile|]. apply report_text_lines.
Qed.

Lemma saved_report_layout_witness :
  exists n content,
    files (snd (Pipeline.save_analysis_report calm (Some (PlainStr "v2")) true
                  used_world))
      !! "analysis/analysis_report.txt" = Some content /\
    file_lines content =
    ([Pipeline.rule 80;
      "INDUSTRIAL PROCESS MONITORING - ANOMALY ANALYSIS REPORT";
      Pipeline.rule 80;
      ("Generated at: " ++ strftime "%Y-%m-%d %H:%M:%S" (clock calm n))%string;
      "Source plot: images/culprit_signals_analysis.png";
      Pipeline.rule 80;
      EmptyString]
     ++ split_lines (Pipeline.text_of (Some (PlainStr "v2")))
     ++ [EmptyString; Pipeline.rule 80; "End of Report"])%list.
Proof.
  apply (saved_report_layout calm (Some (PlainStr "v2")) true used_world).
  vm_compute. reflexivity.
Defined.

(** C7 as the specification words it fails: the saved file has a rule
    between the title and the timestamp, empty lines around the model
    output, and an "End of Report" line after the closing rule. *)
Lemma report_layout_counterexample :
  file_lines (Pipeline.report_text "v2" noon) =
    [Pipeline.rule 80;
     "INDUSTRIAL PROCESS MONITORING - ANOMALY ANALYSIS REPORT";
     Pipeline.rule 80;
     "Generated at: 2025-09-13 12:00:00";
     "Source plot: images/culprit_signals_analysis.png";
     Pipeline.rule 80;
     EmptyString; "v2"; EmptyString;
     Pipeline.rule 80; "End of Report"] /\
  files (snd (Pipeline.save_analysis_report calm (Some (PlainStr "v2")) true
                used_world))
    !! "analysis/analysis_report.txt"
  = Some (Pipeline.report_text "v2" noon) /\
  ~ report_layout_spec "v2" (file_lines (Pipeline.report_text "v2" noon)).
Proof.
  split; [vm_compute; reflexivity|].
  split; [vm_compute; reflexivity|].
  intros (r1 & title & generated & source & r2 & r3 & _ & _ & _ & Hls).
  vm_compute in Hls. discriminate Hls.
Qed.

(** C8. When the import of the inference library fails, or one of its
    calls raises, the analysis step prints to the console and returns None
    without raising and without touching the file system; and in an
    environment where the library fails whenever it is called, a run of the
    complete pipeline returns normally and leaves every file of the
    analysis folder (report and archive) as it was. *)
Theorem analysis_failure_is_contained (E : env) :
  (forall w stage import_error msg,
     vlm E w = VlmRaises stage import_error msg ->
     exists w' evs,
       Pipeline.run_plot_analysis E w = (Ok None, w') /\
       files w' = files w /\ dirs w' = dirs w /\
       logged_since w w' evs /\
       forallb (fun ev => match ev with Printed _ => true | _ => false end) evs
       = true /\
       (2 <= length evs)%nat)
  /\
  ((forall w, exists stage import_error msg,
      vlm E w = VlmRaises stage import_error msg) ->
   forall w, exists b w',
     Pipeline.run_complete_pipeline E w = (Ok b, w') /\
     untouched under_analysis w w').
Proof.
  assert (Hstep : forall w stage import_error msg,
     vlm E w = VlmRaises stage import_error msg ->
     exists w' evs,
       Pipeline.run_plot_analysis E w = (Ok None, w') /\
       files w' = files w /\ dirs w' = dirs w /\
       logged_since w w' evs /\
       forallb (fun ev => match ev with Printed _ => true | _ => false end) evs
       = true /\
       (2 <= length evs)%nat).
  { intros w stage ie msg Hv.
    unfold Pipeline.run_plot_analysis, bind, consult_vlm. rewrite Hv.
    unfold try_except, logged_since.
    destruct stage, ie; eexists; eexists;
      (split; [reflexivity|]); cbn [files dirs log emit];
      rewrite <- ?app_assoc;
      (split; [reflexivity|]); (split; [reflexivity|]);
      (split; [reflexivity|]); (split; [reflexivity|]); simpl; lia. }
  split; [exact Hstep|].
  intros Hfail w.
  unfold Pipeline.run_complete_pipeline.
  unfold bind at 1 2 3 4 5 6 7 8. unfold print at 1 2 3 4 5 6 7, now at 1.
  set (w0 := emit _ (emit _ (emit _ (emit _ (tick (emit _ (emit _ (emit _ w)))))))).
  assert (Hw0 : untouched under_analysis w w0)
    by (apply untouched_same_files; reflexivity).
  destruct (guarded_step_returns under_analysis
              (SynthData.generate_and_save_data E)
              (print "✅ Data generation completed successfully" >> ret true)
              (fun e => print ("❌ Error in data generation: " ++ exn_str e) >>
                        ret false) w0)
    as (b1 & wA & HA & HuA).
  { apply tame_generate_and_save_data. }
  { intros w'. exists true. right. eexists. reflexivity. }
  { intros e w'. exists false. eexists. reflexivity. }
  unfold bind at 1. rewrite HA.
  destruct b1; cbn [negb];
    [|exists false, wA; split;
      [reflexivity | exact (untouched_trans _ _ _ _ Hw0 HuA)]].
  unfold bind at 1 2 3 4. unfold print at 1 2 3.
  set (w2 := emit _ (emit _ (emit _ wA))).
  assert (Hw2 : untouched under_analysis w w2).
  { eapply untouched_trans; [exact Hw0|].
    eapply untouched_trans; [exact HuA|].
    apply untouched_same_files. reflexivity. }
  destruct (guarded_step_returns under_analysis
              (PlotData.create_dashboard E)
              (print "✅ Visualization created successfully" >> ret true)
              (fun e => print ("❌ Error in visualization: " ++ exn_str e) >>
                        ret false) w2)
    as (b2 & wB & HB & HuB).
  { apply tame_create_dashboard. }
  { intros w'. exists true. right. eexists. reflexivity. }
  { intros e w'. exists false. eexists. reflexivity. }
  rewrite HB.
  destruct b2; cbn [negb];
    [|exists false, wB; split;
      [reflexivity | exact (untouched_trans _ _ _ _ Hw2 HuB)]].
  unfold bind at 1 2 3 4. unfold print at 1 2 3.
  set (w3 := emit _ (emit _ (emit _ wB))).
  destruct (Hfail w3) as (stage & ie & msg & Hv).
  destruct (Hstep w3 stage ie msg Hv) as (wC & evs & HC & HfC & _).
  rewrite HC. cbn [Pipeline.truthy].
  eexists. eexists. split; [reflexivity|].
  eapply untouched_trans; [exact Hw2|].
  eapply untouched_trans; [exact HuB|].
  apply untouched_same_files. cbn [files emit tick]. exact HfC.
Qed.

Lemma analysis_failure_is_contained_witness :
  (exists w' evs,
     Pipeline.run_plot_analysis no_vlm used_world = (Ok None, w') /\
     files w' = files used_world /\ dirs w' = dirs used_world /\
     logged_since used_world w' evs /\
     forallb (fun ev => match ev with Printed _ => true | _ => false end) evs
     = true /\
     (2 <= length evs)%nat)
  /\
  exists b w',
    Pipeline.run_complete_pipeline no_vlm used_world = (Ok b, w') /\
    untouched under_analysis used_world w'.
Proof.
  destruct (analysis_failure_is_contained no_vlm) as [H1 H2].
  split.
  - apply (H1 used_world AtImport true "No module named mlx_vlm"). reflexivity.
  - apply H2. intros w. exists AtImport, true, "No module named mlx_vlm".
    reflexivity.
Defined.

(** C9. One call of the rotation of the data tables reads the clock once:
    when both events.csv and sensors.csv are at their current locations,
    the two archive entries carry the same timestamp string, whatever the
    clock would say at any later reading. *)
Theorem paired_archive_timestamp (E : env) (w : world) (Ce Cs : string) :
  moves_succeed E ->
  files w !! "data/events.csv" = Some Ce ->
  files w !! "data/sensors.csv" = Some Cs ->
  exists w' ts,
    SynthData.archive_existing_files E w = (Ok tt, w') /\
    ts = strftime "%Y%m%d_%H%M%S" (clock E (reads w)) /\
    reads w' = S (reads w) /\
    files w' !! ("data/archive/events_" ++ ts ++ ".csv") = Some Ce /\
    files w' !! ("data/archive/sensors_" ++ ts ++ ".csv") = Some Cs /\
    logged_since w w'
      [Moved "data/events.csv" ("data/archive/events_" ++ ts ++ ".csv");
       Printed ("Archived events.csv to events_" ++ ts ++ ".csv");
       Moved "data/sensors.csv" ("data/archive/sensors_" ++ ts ++ ".csv");
       Printed ("Archived sensors.csv to sensors_" ++ ts ++ ".csv")].
Proof.
  intros Hm He Hs.
  exists (rotate_all Data (stamp (clock E (reads w))) (prepared Data w)),
         (stamp (clock E (reads w))).
  split; [exact (rotation_ok E Data w Hm)|].
  split; [reflexivity|].
  split; [rewrite reads_rotate_all; apply reads_prepared|].
  generalize (stamp (clock E (reads w))). intros ts.
  assert (Hs1 : rotated "data/events.csv" ("data/archive/events_" ++ ts ++ ".csv")
                  (files w) !! "data/sensors.csv" = Some Cs).
  { rewrite lookup_rotated_other by paths_differ. exact Hs. }
  split; [|split].
  - rewrite files_rotate_all_data, files_prepared.
    rewrite lookup_rotated_other by paths_differ.
    apply lookup_rotated_arch. exact He.
  - rewrite files_rotate_all_data, files_prepared.
    apply lookup_rotated_arch. exact Hs1.
  - unfold logged_since, rotate_all, current_names, fold_left.
    change (cur_path Data "events.csv") with "data/events.csv".
    change (cur_path Data "sensors.csv") with "data/sensors.csv".
    change (arch_path Data ts "events.csv")
      with ("data/archive/events_" ++ ts ++ ".csv").
    change (arch_path Data ts "sensors.csv")
      with ("data/archive/sensors_" ++ ts ++ ".csv").
    unfold after_rotation at 1. rewrite files_after_rotation, files_prepared.
    rewrite Hs1. unfold after_rotation.
    rewrite files_prepared, He. cbn [log emit set_files prepared tick add_dirs].
    rewrite <- !app_assoc. reflexivity.
Qed.

Lemma paired_archive_timestamp_witness :
  exists w' ts,
    SynthData.archive_existing_files ticking used_world = (Ok tt, w') /\
    ts = strftime "%Y%m%d_%H%M%S" (clock ticking (reads used_world)) /\
    reads w' = S (reads used_world) /\
    files w' !! ("data/archive/events_" ++ ts ++ ".csv") = Some "ev1" /\
    files w' !! ("data/archive/sensors_" ++ ts ++ ".csv") = Some "sn1" /\
    logged_since used_world w'
      [Moved "data/events.csv" ("data/archive/events_" ++ ts ++ ".csv");
       Printed ("Archived events.csv to events_" ++ ts ++ ".csv");
       Moved "data/sensors.csv" ("data/archive/sensors_" ++ ts ++ ".csv");
       Printed ("Archived sensors.csv to sensors_" ++ ts ++ ".csv")].
Proof.
  apply (paired_archive_timestamp ticking used_world "ev1" "sn1").
  - intros w src dst. reflexivity.
  - vm_compute. reflexivity.
  - vm_compute. reflexivity.
Defined.

(** C10 (as the code has it). When events.csv or sensors.csv is missing,
    the chart step changes neither the regular files nor the directories:
    the chart in place is neither archived nor overwritten.  When
    events.csv is the missing one, or events.csv is there and parses (so
    that sensors.csv is the missing one), the step prints the loading
    error and the hint and returns normally. *)
Theorem dashboard_skips_without_data (E : env) (w : world) :
  files w !! "data/events.csv" = None \/ files w !! "data/sensors.csv" = None ->
  (files (snd (PlotData.create_dashboard E w)) = files w /\
   dirs (snd (PlotData.create_dashboard E w)) = dirs w) /\
  ((files w !! "data/events.csv" = None \/
    exists text, files w !! "data/events.csv" = Some text /\ csv_parses E text) ->
   exists w' missing,
     PlotData.create_dashboard E w = (Ok tt, w') /\
     logged_since w w'
       [Printed ("Error loading data: [Errno 2] No such file or directory: '"
                 ++ missing ++ "'");
        Printed "Could not load data files. Make sure events.csv and sensors.csv exist in the data folder."]).
Proof.
  intros Hmiss.
  assert (Hskip : forall missing,
    PlotData.load_data E w
    = (Ok (None, None),
       emit (Printed ("Error loading data: [Errno 2] No such file or directory: '"
                      ++ missing ++ "'")) w) ->
    (files (snd (PlotData.create_dashboard E w)) = files w /\
     dirs (snd (PlotData.create_dashboard E w)) = dirs w) /\
    exists w' missing,
      PlotData.create_dashboard E w = (Ok tt, w') /\
      logged_since w w'
        [Printed ("Error loading data: [Errno 2] No such file or directory: '"
                  ++ missing ++ "'");
         Printed "Could not load data files. Make sure events.csv and sensors.csv exist in the data folder."]).
  { intros missing Hload. unfold PlotData.create_dashboard, bind.
    rewrite Hload. split; [split; reflexivity|].
    eexists. exists missing. split; [reflexivity|].
    unfold logged_since. cbn [log emit print snd].
    rewrite <- app_assoc. reflexivity. }
  destruct (files w !! "data/events.csv") as [ev|] eqn:Hev.
  - destruct Hmiss as [Hmiss|Hmiss]; [discriminate Hmiss|].
    destruct (csv_parses_dec E ev) as [Pev|Pev].
    + destruct (Hskip _ (load_data_sensors_missing E w ev Hev Pev Hmiss))
        as [Hframe Hret].
      split; [exact Hframe|]. intros _. exact Hret.
    + destruct (load_data_events_unreadable E w ev Hev Pev) as (msg & Hload).
      unfold PlotData.create_dashboard, bind. rewrite Hload.
      split; [split; reflexivity|].
      intros [Hnone | (text & Htext & Ptext)]; [discriminate Hnone|].
      injection Htext as <-. contradiction.
  - destruct (Hskip _ (load_data_events_missing E w Hev)) as [Hframe Hret].
    split; [exact Hframe|]. intros _. exact Hret.
Qed.

Lemma dashboard_skips_without_data_witness :
  (files (snd (PlotData.create_dashboard calm sensors_lost_world))
   = files sensors_lost_world /\
   dirs (snd (PlotData.create_dashboard calm sensors_lost_world))
   = dirs sensors_lost_world) /\
  exists w' missing,
    PlotData.create_dashboard calm sensors_lost_world = (Ok tt, w') /\
    logged_since sensors_lost_world w'
      [Printed ("Error loading data: [Errno 2] No such file or directory: '"
                ++ missing ++ "'");
       Printed "Could not load data files. Make sure events.csv and sensors.csv exist in the data folder."].
Proof.
  destruct (dashboard_skips_without_data calm sensors_lost_world)
    as [Hframe Hreturns].
  - right. vm_compute. reflexivity.
  - split; [exact Hframe|]. apply Hreturns.
    right. exists "ev1". split; [vm_compute; reflexivity|].
    split; reflexivity.
Defined.

(** C10 as the specification words it fails: with sensors.csv missing and
    an events.csv that is there but empty, reading events.csv raises
    pandas' EmptyDataError, a ValueError, before sensors.csv is looked for;
    [except FileNotFoundError] does not catch it and the chart step
    raises. *)
Lemma dashboard_raises_on_empty_events :
  files empty_events_world !! "data/sensors.csv" = None /\
  files empty_events_world !! "data/events.csv" = Some EmptyString /\
  PlotData.create_dashboard calm empty_events_world
  = (Raise (ValueError "No columns to parse from file"), empty_events_world).
Proof. repeat split; vm_compute; reflexivity. Qed.

(** ** Further properties of the code *)

Import Effects LoopFacts FolderFacts StatusFacts.





















(** ** Sanity checks of the embedding on sample inputs *)

Example splitext_events : PyStr.splitext "events.csv" = ("events", ".csv").
Proof. reflexivity. Qed.

Example splitext_hidden : PyStr.splitext "dir/.bashrc" = ("dir/.bashrc", EmptyString).
Proof. reflexivity. Qed.

Example splitext_two : PyStr.splitext "a.tar.gz" = ("a.tar", ".gz").
Proof. reflexivity. Qed.

Example join_archive : PyStr.path_join "data/archive" "x.csv" = "data/archive/x.csv".
Proof. reflexivity. Qed.

Example strftime_compact :
  Datetime.strftime "%Y%m%d_%H%M%S" (Datetime.mkDatetime 2025 9 13 8 0 5 17)
  = "20250913_080005".
Proof. reflexivity. Qed.

Example strip_choice :
  PyStr.strip (" 4 " ++ String (ascii_of_nat 10) EmptyString) = "4".
Proof. reflexivity. Qed.

Example strip_blank : PyStr.strip "   " = EmptyString.
Proof. reflexivity. Qed.
